(** * Lottery history: the row parser of [update_jackpots.py] and the
      query handler of [api.py]

    The development embeds the two Python files of the repository:

    - [update_jackpots.py]: [parse_draw_rows], [fetch_lottery_history] and
      [main], over the element tree BeautifulSoup builds from a page;
    - [api.py]: [get_lottery], over the JSON value [load_history] reads.

    Text is modelled as [string], one [ascii] per code point, so the model
    covers the code points U+0000..U+00FF (Latin-1).  On that range the
    character classes below are exactly those of the Python interpreter
    ([str.isspace], [str.isdigit], [str.isdecimal], and the classes [\s],
    [\d], [\w] of the [re] module on [str] patterns). *)

From Stdlib Require Import ZArith Lia Bool List Ascii String.
From stdpp Require Import base option gmap strings list fin_maps.

Local Open Scope string_scope.
Local Open Scope Z_scope.

(** ** Python text primitives *)

Module Py.

(** The code point of a character. *)
Definition ord (c : ascii) : N := N_of_ascii c.

(** [str.isspace] on one character, also the class [\s]. *)
Definition isspace_char (c : ascii) : bool :=
  let n := ord c in
  ((9 <=? n) && (n <=? 13) || (28 <=? n) && (n <=? 32)
   || (n =? 133) || (n =? 160))%N.

(** [str.isdecimal] on one character, also the class [\d]. *)
Definition isdecimal_char (c : ascii) : bool :=
  let n := ord c in ((48 <=? n) && (n <=? 57))%N.

(** [str.isdigit] on one character: the decimal digits and the superscript
    digits U+00B2, U+00B3 and U+00B9. *)
Definition isdigit_char (c : ascii) : bool :=
  let n := ord c in
  (isdecimal_char c || (n =? 178) || (n =? 179) || (n =? 185))%N.

(** [str.isalnum] on one character or the underscore: the class [\w]. *)
Definition isword_char (c : ascii) : bool :=
  let n := ord c in
  ((48 <=? n) && (n <=? 57) || (65 <=? n) && (n <=? 90)
   || (97 <=? n) && (n <=? 122) || (n =? 95)
   || (n =? 170) || (n =? 178) || (n =? 179) || (n =? 181) || (n =? 185)
   || (n =? 186) || (188 <=? n) && (n <=? 190)
   || (192 <=? n) && (n <=? 214) || (216 <=? n) && (n <=? 246)
   || (248 <=? n) && (n <=? 255))%N.

(** The value of a decimal digit character. *)
Definition digit_value (c : ascii) : Z := Z.of_N (ord c) - 48.

Definition is_empty (s : string) : bool :=
  match s with EmptyString => true | String _ _ => false end.

(** [s.lstrip()] *)
Fixpoint lstrip (s : string) : string :=
  match s with
  | String c r => if isspace_char c then lstrip r else s
  | EmptyString => EmptyString
  end.

(** [s.rstrip()] *)
Fixpoint rstrip (s : string) : string :=
  match s with
  | String c r =>
      let r' := rstrip r in
      if isspace_char c && is_empty r' then EmptyString else String c r'
  | EmptyString => EmptyString
  end.

(** [s.strip()] *)
Definition strip (s : string) : string := rstrip (lstrip s).

(** [s.split()]: the maximal runs of non-whitespace characters. *)
Fixpoint split (s : string) : list string :=
  match s with
  | EmptyString => []
  | String c r =>
      if isspace_char c then split r
      else
        match r with
        | EmptyString => [String c EmptyString]
        | String c' _ =>
            if isspace_char c' then String c EmptyString :: split r
            else
              match split r with
              | t :: ts => String c t :: ts
              | [] => [String c EmptyString]
              end
        end
  end.

(** [sep.join(l)] *)
Definition join (sep : string) (l : list string) : string :=
  String.concat sep l.

(** [s.replace(c, "")] for a one-character [c]. *)
Fixpoint remove_char (c : ascii) (s : string) : string :=
  match s with
  | EmptyString => EmptyString
  | String x r =>
      if Ascii.eqb x c then remove_char c r else String x (remove_char c r)
  end.

Fixpoint forall_chars (p : ascii -> bool) (s : string) : bool :=
  match s with
  | EmptyString => true
  | String c r => p c && forall_chars p r
  end.

(** [s.isdigit()]: at least one character, all of them digits. *)
Definition isdigit (s : string) : bool :=
  negb (is_empty s) && forall_chars isdigit_char s.

(** [s.isdecimal()] *)
Definition isdecimal (s : string) : bool :=
  negb (is_empty s) && forall_chars isdecimal_char s.

(** The number a run of decimal digits denotes, most significant first. *)
Fixpoint digits_value (acc : Z) (s : string) : Z :=
  match s with
  | EmptyString => acc
  | String c r => digits_value (10 * acc + digit_value c) r
  end.

(** [int(s)] as the parser calls it: always behind an [isdigit()] guard, so
    [s] carries no sign, blank or underscore.  On such a string [int]
    returns the decimal value when every character is a decimal digit and
    raises [ValueError] ([None]) otherwise: a superscript digit passes
    [isdigit()] and is refused by [int].  The cap an interpreter may put on
    the length of the literal is a setting of the interpreter and is left
    out. *)
Definition int (s : string) : option Z :=
  if isdecimal s then Some (digits_value 0 s) else None.

End Py.

(** ** Outcomes of Python calls *)

(** The exceptions the two files can raise or let escape. *)
Inductive exn : Type :=
  | ValueError
  | TypeError
  | AttributeError
  | HTTPException (status_code : Z) (detail : string).

(** A call either returns a value or raises. *)
Inductive outcome (A : Type) : Type :=
  | Returned (a : A)
  | Raised (e : exn).
Arguments Returned {A} a.
Arguments Raised {A} e.

(** ** Calendar dates: [datetime.date] *)

Record date : Type := Date { year : Z; month : Z; day : Z }.

Definition is_leap (y : Z) : bool :=
  (y mod 4 =? 0) && (negb (y mod 100 =? 0) || (y mod 400 =? 0)).

Definition days_in_month (y m : Z) : Z :=
  if m =? 2 then (if is_leap y then 29 else 28)
  else if (m =? 4) || (m =? 6) || (m =? 9) || (m =? 11) then 30
  else 31.

(** The range check of the [date] constructor. *)
Definition valid_date (y m d : Z) : bool :=
  (1 <=? y) && (y <=? 9999) && (1 <=? m) && (m <=? 12)
  && (1 <=? d) && (d <=? days_in_month y m).

(** [date(y, m, d)]: [None] stands for the [ValueError] of a date out of
    range. *)
Definition date_new (y m d : Z) : option date :=
  if valid_date y m d then Some (Date y m d) else None.

(** [a < b] on dates. *)
Definition date_ltb (a b : date) : bool :=
  (year a <? year b)
  || (year a =? year b)
     && ((month a <? month b) || (month a =? month b) && (day a <? day b)).

Definition digit_char (n : Z) : ascii := ascii_of_N (Z.to_N (48 + n mod 10)).

(** [d.isoformat()]: ["%04d-%02d-%02d"]. *)
Definition pad2 (n : Z) : string :=
  String (digit_char (n / 10)) (String (digit_char n) EmptyString).

Definition pad4 (n : Z) : string :=
  String (digit_char (n / 1000)) (String (digit_char (n / 100))
    (String (digit_char (n / 10)) (String (digit_char n) EmptyString))).

Definition isoformat (d : date) : string :=
  pad4 (year d) +:+ "-" +:+ pad2 (month d) +:+ "-" +:+ pad2 (day d).

(** ** The two regular expressions of the parser *)

Module Re.

(** [re.sub(r"(\d+)(st|nd|rd|th)", r"\1", s)].  A match is a maximal run of
    decimal digits followed by one of the four suffixes; matches are found
    left to right and do not overlap, and each is replaced by its digits.
    Inside a run no shorter match exists, since the character after a
    proper prefix of the run is a digit. *)
Definition is_ordinal_suffix (a b : ascii) : bool :=
  let s := String a (String b EmptyString) in
  String.eqb s "st" || String.eqb s "nd" || String.eqb s "rd"
  || String.eqb s "th".

Fixpoint sub_ordinal (s : string) : string :=
  match s with
  | EmptyString => EmptyString
  | String c r =>
      if Py.isdecimal_char c then
        match r with
        | String a (String b r') =>
            if is_ordinal_suffix a b then String c (sub_ordinal r')
            else String c (sub_ordinal r)
        | _ => String c (sub_ordinal r)
        end
      else String c (sub_ordinal r)
  end.

(** [re.compile(r"\bresultBall\b").search(s)]: some occurrence of the word
    with no word character right before or right after it. *)
Fixpoint drop_prefix (p s : string) : option string :=
  match p, s with
  | EmptyString, _ => Some s
  | String a p', String b s' => if Ascii.eqb a b then drop_prefix p' s' else None
  | String _ _, EmptyString => None
  end.

Definition at_word_end (s : string) : bool :=
  match s with
  | EmptyString => true
  | String c _ => negb (Py.isword_char c)
  end.

Fixpoint search_word_from (w : string) (after_word : bool) (s : string) : bool :=
  (negb after_word
   && match drop_prefix w s with
      | Some rest => at_word_end rest
      | None => false
      end)
  || match s with
     | EmptyString => false
     | String c r => search_word_from w (Py.isword_char c) r
     end.

Definition search_resultBall (s : string) : bool :=
  search_word_from "resultBall" false s.

End Re.

(** ** [datetime.strptime(s, "%B %d %Y")]

    [_strptime] compiles the format to the regular expression

    [(?P<B>september|february|...|may)\s+(?P<d>3[0-1]|[1-2]\d|0[1-9]|[1-9]| [1-9])\s+(?P<Y>\d\d\d\d)]

    with [IGNORECASE], matches it at the start of the string, refuses
    unconverted trailing data, and builds the date from the three groups.
    The month names are those of the C (English) locale.  The matcher is
    written in continuation-passing style: [None] is a failed branch, the
    alternatives are tried in the order of the pattern and [\s+] is greedy
    and gives characters back, as the backtracking engine does. *)

Module Strptime.

(** [locale_time.f_month]: lower-cased full names, a dummy at index 0. *)
Definition f_month : list string :=
  [""; "january"; "february"; "march"; "april"; "may"; "june"; "july";
   "august"; "september"; "october"; "november"; "december"].

(** [calendar.month_name], the spelling a page uses. *)
Definition month_name : list string :=
  [""; "January"; "February"; "March"; "April"; "May"; "June"; "July";
   "August"; "September"; "October"; "November"; "December"].

(** [sorted(f_month[1:], key=len, reverse=True)]: the order of the
    alternatives of group [B]. *)
Definition B_alternatives : list string :=
  ["september"; "february"; "november"; "december"; "january"; "october";
   "august"; "march"; "april"; "june"; "july"; "may"].

(** A pattern letter [p] (lower case) against a subject character under
    [IGNORECASE]. *)
Definition upper (p : ascii) : ascii :=
  let n := Py.ord p in
  if ((97 <=? n) && (n <=? 122))%N then ascii_of_N (n - 32) else p.

Definition eqb_nocase (p c : ascii) : bool :=
  Ascii.eqb p c || Ascii.eqb (upper p) c.

Fixpoint drop_prefix_nocase (p s : string) : option string :=
  match p, s with
  | EmptyString, _ => Some s
  | String a p', String b s' =>
      if eqb_nocase a b then drop_prefix_nocase p' s' else None
  | String _ _, EmptyString => None
  end.

Section Matcher.
Context {R : Type}.

(** The first branch that succeeds wins. *)
Definition orelse (x y : option R) : option R :=
  match x with Some r => Some r | None => y end.

(** Group [B]: the continuation receives the name that matched. *)
Fixpoint re_B (names : list string) (s : string)
    (k : string -> string -> option R) : option R :=
  match names with
  | [] => None
  | n :: ns =>
      orelse
        match drop_prefix_nocase n s with
        | Some r => k n r
        | None => None
        end
        (re_B ns s k)
  end.

(** [\s*], longest first. *)
Fixpoint re_spaces (s : string) (k : string -> option R) : option R :=
  match s with
  | String c r => if Py.isspace_char c then orelse (re_spaces r k) (k s) else k s
  | EmptyString => k s
  end.

(** [\s+] *)
Definition re_spaces1 (s : string) (k : string -> option R) : option R :=
  match s with
  | String c r => if Py.isspace_char c then re_spaces r k else None
  | EmptyString => None
  end.

Definition in_range (lo hi : N) (c : ascii) : bool :=
  ((lo <=? Py.ord c) && (Py.ord c <=? hi))%N.

(** Two characters [a b] with [a] in the first class and [b] in the
    second; the continuation receives [int] of the two characters. *)
Definition two_chars (pa pb : ascii -> bool) (s : string)
    (k : Z -> string -> option R) : option R :=
  match s with
  | String a (String b r) =>
      if pa a && pb b then k (10 * Py.digit_value a + Py.digit_value b) r
      else None
  | _ => None
  end.

(** Group [d]: [3[0-1]|[1-2]\d|0[1-9]|[1-9]| [1-9]]; the continuation
    receives [int(found_dict['d'])]. *)
Definition re_d (s : string) (k : Z -> string -> option R) : option R :=
  orelse (two_chars (in_range 51 51) (in_range 48 49) s k)
 (orelse (two_chars (in_range 49 50) Py.isdecimal_char s k)
 (orelse (two_chars (in_range 48 48) (in_range 49 57) s k)
 (orelse match s with
         | String a r => if in_range 49 57 a then k (Py.digit_value a) r else None
         | EmptyString => None
         end
         match s with
         | String a (String b r) =>
             if Ascii.eqb a " " && in_range 49 57 b then k (Py.digit_value b) r
             else None
         | _ => None
         end))).

(** Group [Y]: [\d\d\d\d]; the continuation receives [int] of it. *)
Definition re_Y (s : string) (k : Z -> string -> option R) : option R :=
  match s with
  | String a (String b (String c (String d r))) =>
      if Py.isdecimal_char a && Py.isdecimal_char b
         && Py.isdecimal_char c && Py.isdecimal_char d
      then k (Py.digits_value 0 (String a (String b (String c (String d EmptyString))))) r
      else None
  | _ => None
  end.
End Matcher.

(** [format_regex.match(s)]: the groups and the unmatched rest. *)
Definition format_regex_match (s : string) : option (string * Z * Z * string) :=
  re_B B_alternatives s (fun B r1 =>
  re_spaces1 r1 (fun r2 =>
  re_d r2 (fun d r3 =>
  re_spaces1 r3 (fun r4 =>
  re_Y r4 (fun Y r5 => Some (B, d, Y, r5)))))).

(** [l.index(x)] *)
Fixpoint index (x : string) (l : list string) : option Z :=
  match l with
  | [] => None
  | y :: l' => if String.eqb x y then Some 0 else Z.succ <$> index x l'
  end.

(** [datetime.strptime(s, "%B %d %Y").date()]; [None] is [ValueError]. *)
Definition strptime (s : string) : option date :=
  match format_regex_match s with
  | None => None
  | Some (B, d, Y, rest) =>
      if Py.is_empty rest then
        match index B f_month with
        | Some m => date_new Y m d
        | None => None
        end
      else None
  end.

End Strptime.

(** ** The element tree of BeautifulSoup

    [BeautifulSoup(html, "html.parser")] turns a page into a tree; the
    parser of the repository only walks that tree, so a page is modelled by
    the tree built from it.  Of the attributes of an element only [class]
    is read; it is kept as the list of its whitespace-separated values, as
    BeautifulSoup stores it. *)

#[warnings="-register-all"]
Inductive node : Type :=
  | NavigableString (s : string)
      (** a piece of text *)
  | Comment (s : string)
      (** a string [get_text] leaves out: comment, declaration, script *)
  | Tag (name : string) (class_ : list string) (contents : list node).

Module Soup.

(** [tag.descendants]: every node below [n], in document order. *)
Fixpoint descendants (n : node) : list node :=
  match n with
  | Tag _ _ contents => flat_map (fun k => k :: descendants k) contents
  | _ => []
  end.

Definition has_name (name : string) (n : node) : bool :=
  match n with
  | Tag t _ _ => String.eqb t name
  | _ => false
  end.

(** [tag.find_all(name)] *)
Definition find_all (name : string) (n : node) : list node :=
  List.filter (has_name name) (descendants n).

(** [tag.find(name)]: the first match, or [None]. *)
Definition find (name : string) (n : node) : option node :=
  head (find_all name n).

(** A compiled pattern against the [class] attribute: it is searched in
    each value of the attribute and then in the values joined by a space. *)
Definition class_matches (search : string -> bool) (n : node) : bool :=
  match n with
  | Tag _ cls _ => existsb search cls || search (Py.join " " cls)
  | _ => false
  end.

(** [tag.find_all(name, class_=pattern)] *)
Definition find_all_class (name : string) (search : string -> bool) (n : node)
    : list node :=
  List.filter (fun t => has_name name t && class_matches search t)
    (descendants n).

(** The strings [get_text(strip=True)] collects: each text below [n],
    stripped, the empty ones dropped. *)
Definition stripped_strings (n : node) : list string :=
  flat_map
    (fun k =>
       match k with
       | NavigableString s =>
           let s' := Py.strip s in
           if Py.is_empty s' then [] else [s']
       | _ => []
       end)
    (descendants n).

(** [tag.get_text(sep, strip=True)] *)
Definition get_text (sep : string) (n : node) : string :=
  Py.join sep (stripped_strings n).

End Soup.

(** ** [update_jackpots.py] *)

(** Only include draws on or after this cutoff. *)
Definition CUTOFF_DATE : date := Date 2025 1 1.

(** A draw record: the dict with keys [date], [numbers], [jackpot]. *)
Record draw : Type := Draw {
  rec_date : string;
  rec_numbers : list Z;
  rec_jackpot : Z
}.

(** Lines 86-111 of [parse_draw_rows]: the date of a row, [None] when the
    row is left by one of the [continue] statements up to the [except]. *)
Definition row_date (tr : node) : option date :=
  let tds := Soup.find_all "td" tr in
  if (Z.of_nat (length tds) <? 3) then None
  else
    match tds !! 0%nat with
    | None => None
    | Some date_td =>
        match Soup.find "a" date_td with
        | None => None
        | Some a_tag =>
            if Py.is_empty (Soup.get_text "" a_tag) then None
            else
              let raw_date := Soup.get_text " " a_tag in
              let parts := Py.split raw_date in
              if (Z.of_nat (length parts) <? 3) then None
              else
                let date_part := Py.join " " (tail parts) in
                let date_part := Re.sub_ordinal date_part in
                Strptime.strptime date_part
        end
    end.

(** The loop over the ball spans: [numbers.append(int(txt))] for every span
    whose text [isdigit()]. *)
Fixpoint collect_numbers (number_spans : list node) (numbers : list Z)
    : outcome (list Z) :=
  match number_spans with
  | [] => Returned numbers
  | span :: rest =>
      let txt := Soup.get_text "" span in
      if Py.isdigit txt then
        match Py.int txt with
        | Some n => collect_numbers rest (numbers ++ [n])
        | None => Raised ValueError
        end
      else collect_numbers rest numbers
  end.

(** The body of the loop of [parse_draw_rows] for one [<tr>]:
    [Returned None] is [continue], [Returned (Some r)] is
    [results.append(r)], and [Raised] is an exception that leaves the
    function. *)
Definition parse_row (tr : node) : outcome (option draw) :=
  match row_date tr with
  | None => Returned None
  | Some draw_date =>
      if date_ltb draw_date CUTOFF_DATE then Returned None
      else
        let tds := Soup.find_all "td" tr in
        match tds !! 1%nat, tds !! 2%nat with
        | Some numbers_td, Some jackpot_td =>
            let number_spans :=
              Soup.find_all_class "span" Re.search_resultBall numbers_td in
            match collect_numbers number_spans [] with
            | Raised e => Raised e
            | Returned numbers =>
                if (Z.of_nat (length numbers) =? 0) then Returned None
                else
                  match Soup.find "strong" jackpot_td with
                  | None => Returned None
                  | Some strong =>
                      let jackpot_text := Soup.get_text "" strong in
                      let jackpot_digits :=
                        Py.remove_char "," (Py.remove_char "$" jackpot_text) in
                      if negb (Py.isdigit jackpot_digits) then Returned None
                      else
                        match Py.int jackpot_digits with
                        | None => Raised ValueError
                        | Some jackpot_amount =>
                            Returned (Some
                              {| rec_date := isoformat draw_date;
                                 rec_numbers := numbers;
                                 rec_jackpot := jackpot_amount |})
                        end
                  end
            end
        | _, _ => Returned None
        end
  end.

(** [for tr in soup.find_all("tr"): ...] with the list [results]. *)
Fixpoint parse_rows (trs : list node) (results : list draw)
    : outcome (list draw) :=
  match trs with
  | [] => Returned results
  | tr :: rest =>
      match parse_row tr with
      | Raised e => Raised e
      | Returned None => parse_rows rest results
      | Returned (Some r) => parse_rows rest (results ++ [r])
      end
  end.

(** [parse_draw_rows(html)]; [html] is the content of the document. *)
Definition parse_draw_rows (html : list node) : outcome (list draw) :=
  let soup := Tag "[document]" [] html in
  parse_rows (Soup.find_all "tr" soup) [].

(** ** JSON values: what [json.dump] writes and [json.load] reads back *)

#[warnings="-register-all"]
Inductive json : Type :=
  | JNull
  | JBool (b : bool)
  | JInt (n : Z)
  | JFloat (literal : string)
  | JStr (s : string)
  | JArr (items : list json)
  | JObj (members : gmap string json).

(** The dict [parse_draw_rows] appends for a draw. *)
Definition draw_to_json (r : draw) : json :=
  JObj (<["date" := JStr (rec_date r)]>
        (<["numbers" := JArr (JInt <$> rec_numbers r)]>
         (<["jackpot" := JInt (rec_jackpot r)]> ∅))).

Definition POWERBALL_URL : string :=
  "https://www.nylottery.org/powerball/past-winning-numbers".
Definition MEGAMILLIONS_URL : string :=
  "https://www.nylottery.org/mega-millions/past-winning-numbers".

(** What a run of the fetcher reads from outside: the answer of
    [requests.get] for a URL ([None] for any failure, which [fetch_html]
    turns into [None]) and the clock, already formatted. *)
Record world : Type := World {
  http_get : string -> option (list node);
  now_iso : string
}.

Definition fetch_html (w : world) (url : string) : option (list node) :=
  http_get w url.

Definition fetch_lottery_history (w : world) (url : string)
    : outcome (list draw) :=
  match fetch_html w url with
  | None => Returned []
  | Some html => parse_draw_rows html
  end.

(** [main()]: the object written to [history.json], when the run gets
    that far. *)
Definition main (w : world) : outcome (gmap string json) :=
  match fetch_lottery_history w POWERBALL_URL with
  | Raised e => Raised e
  | Returned powerball_history =>
      match fetch_lottery_history w MEGAMILLIONS_URL with
      | Raised e => Raised e
      | Returned megamillions_history =>
          Returned
            (<["timestamp" := JStr (now_iso w)]>
             (<["powerball" := JArr (draw_to_json <$> powerball_history)]>
              (<["megaMillions" := JArr (draw_to_json <$> megamillions_history)]>
               ∅)))
      end
  end.

(** ** [api.py] *)

(** [[e for e in entries if e.get("date") == date]] over a list: an entry
    that is not an object has no [get]. *)
Fixpoint filter_by_date (date : string) (entries : list json)
    : outcome (list json) :=
  match entries with
  | [] => Returned []
  | e :: rest =>
      match e with
      | JObj o =>
          match filter_by_date date rest with
          | Raised x => Raised x
          | Returned filtered =>
              match o !! "date" with
              | Some (JStr s) =>
                  if String.eqb s date then Returned (e :: filtered)
                  else Returned filtered
              | _ => Returned filtered
              end
          end
      | _ => Raised AttributeError
      end
  end.

(** The same comprehension over any value stored under a key: a string
    iterates over its characters and an object over its keys, which are
    strings without [get]; the other values are not iterable. *)
Definition filter_entries (date : string) (entries : json)
    : outcome (list json) :=
  match entries with
  | JArr items => filter_by_date date items
  | JStr s => if Py.is_empty s then Returned [] else Raised AttributeError
  | JObj o =>
      if decide (o = ∅) then Returned [] else Raised AttributeError
  | _ => Raised TypeError
  end.

(** [get_lottery(game, date)] on the object [load_history()] returned.
    An absent query parameter is [None]. *)
Definition get_lottery (history : gmap string json)
    (game date : option string) : outcome json :=
  match game with
  | None => Returned (JObj history)
  | Some game =>
      if Py.is_empty game then Returned (JObj history)
      else
        let key := Py.strip game in
        match history !! key with
        | None =>
            Raised (HTTPException 404 ("Game '" +:+ game +:+ "' not found"))
        | Some entries =>
            match date with
            | None => Returned entries
            | Some date =>
                if Py.is_empty date then Returned entries
                else
                  match filter_entries date entries with
                  | Raised x => Raised x
                  | Returned filtered =>
                      match filtered with
                      | [] =>
                          Raised (HTTPException 404
                            ("No " +:+ key +:+ " draws found on " +:+ date))
                      | _ => Returned (JArr filtered)
                      end
                  end
            end
        end
  end.

(** ** Properties stated in the specification *)

(** The invariant of a draw record: some number, a jackpot that is not
    negative, and the ISO form of a valid date not before the cutoff. *)
Definition date_le (a b : date) : Prop := date_ltb b a = false.

Definition draw_invariant (r : draw) : Prop :=
  rec_numbers r <> []
  /\ 0 <= rec_jackpot r
  /\ exists d : date,
       valid_date (year d) (month d) (day d) = true
       /\ date_le CUTOFF_DATE d
       /\ rec_date r = isoformat d.

(** The numeric ball spans of a row: the spans of the second cell marked
    [resultBall] whose text [isdigit()]. *)
Definition numeric_ball_spans (tr : node) : list node :=
  match Soup.find_all "td" tr !! 1%nat with
  | Some numbers_td =>
      List.filter (fun span => Py.isdigit (Soup.get_text "" span))
        (Soup.find_all_class "span" Re.search_resultBall numbers_td)
  | None => []
  end.

(** A text that passes [isdigit()] and is refused by [int]. *)
Definition digit_not_decimal (s : string) : Prop :=
  Py.isdigit s = true /\ Py.isdecimal s = false.

(** A token: a non-empty string without whitespace. *)
Definition is_token (s : string) : bool :=
  negb (Py.is_empty s)
  && Py.forall_chars (fun c => negb (Py.isspace_char c)) s.

Definition ordinal_suffixes : list string := ["st"; "nd"; "rd"; "th"].

(** A day of the month as a page writes it, without a leading zero. *)
Definition decimal_day (d : Z) : string :=
  if d <? 10 then String (digit_char d) EmptyString else pad2 d.

(** The label ["<Weekday> <Month> <Day><suffix> <Year>"] of the date
    [y]-[m]-[d], the year written with four digits. *)
Definition date_label (weekday : string) (y m d : Z) (suffix : string)
    : string :=
  weekday +:+ " " +:+ nth (Z.to_nat m) Strptime.month_name ""
  +:+ " " +:+ decimal_day d +:+ suffix +:+ " " +:+ pad4 y.

(** The entries of an array a date filter keeps, in the words of the
    specification: those with a [date] field equal to the given string. *)
Definition has_date (date : string) (e : json) : bool :=
  match e with
  | JObj o =>
      match o !! "date" with
      | Some (JStr s) => String.eqb s date
      | _ => false
      end
  | _ => false
  end.

Definition is_object (e : json) : bool :=
  match e with JObj _ => true | _ => false end.

(** ** Sample data *)

Module Sample.

Definition ball (kind txt : string) : node :=
  Tag "span" ["resultBall"; kind] [NavigableString txt].

(** A row of a results page: date link, ball spans, jackpot. *)
Definition row (first_cell : list node) (balls : list node)
    (jackpot_text : string) : node :=
  Tag "tr" []
    [ Tag "td" ["centred"] first_cell;
      Tag "td" ["centred"] balls;
      Tag "td" ["centred"; "nowrap"]
        [Tag "strong" [] [NavigableString jackpot_text];
         NavigableString " Rollover"] ].

Definition link (label : string) : list node :=
  [Tag "a" [] [NavigableString label]].

Definition balls_1 : list node :=
  [ball "ball" "1"; ball "ball" "7"; ball "ball" "22"; ball "ball" "34";
   ball "ball" "56"; ball "power-ball" "18"].

Definition header : node :=
  Tag "tr" [] [Tag "th" [] [NavigableString "Date"];
               Tag "th" [] [NavigableString "Numbers"];
               Tag "th" [] [NavigableString "Jackpot"]].

Definition good_row : node :=
  row (link "Friday May 30th 2025") balls_1 "$189,000,000".

Definition old_row : node :=
  row (link "Tuesday December 31st 2024") balls_1 "$20,000,000".

Definition no_balls_row : node :=
  row (link "Friday May 30th 2025") [ball "ball" "x"] "$189,000,000".

Definition bad_jackpot_row : node :=
  row (link "Friday May 30th 2025") balls_1 "$1,000,00X".

Definition plain_label_row : node :=
  row [NavigableString "Friday May 30th 2025"] balls_1 "$189,000,000".

(** U+00B2, SUPERSCRIPT TWO *)
Definition sup2 : string := String "178" EmptyString.

Definition superscript_jackpot_row : node :=
  row (link "Wednesday May 28th 2025") balls_1 ("$1,000,00" +:+ sup2).

Definition superscript_ball_row : node :=
  row (link "Wednesday May 28th 2025") [ball "ball" "1"; ball "ball" sup2]
    "$189,000,000".

Definition page (rows : list node) : list node :=
  [Tag "html" [] [Tag "body" [] [Tag "table" [] (header :: rows)]]].

Definition good_draw : draw :=
  {| rec_date := "2025-05-30";
     rec_numbers := [1; 7; 22; 34; 56; 18];
     rec_jackpot := 189000000 |}.

Definition mega_draw : json :=
  JObj (<["date" := JStr "2025-01-07"]>
        (<["numbers" := JArr (JInt <$> [4; 14; 35; 49; 62; 6])]>
         (<["jackpot" := JInt 20000000]> ∅))).

Definition snapshot : gmap string json :=
  <["timestamp" := JStr "2025-06-03T14:00:00+00:00"]>
  (<["powerball" := JArr []]>
   (<["megaMillions" := JArr [mega_draw]]> ∅)).

Definition the_world : world :=
  {| http_get := fun url =>
       if String.eqb url POWERBALL_URL then Some (page [good_row; old_row])
       else None;
     now_iso := "2025-06-03T14:00:00+00:00" |}.

End Sample.

(** ** Further notions used to describe the parser and the handler *)

(** The records the rows of a page yield, row by row in document order. *)
Definition kept_records (trs : list node) : list draw :=
  flat_map
    (fun tr =>
       match parse_row tr with
       | Returned (Some r) => [r]
       | _ => []
       end)
    trs.




(** A string of whitespace only. *)
Definition blank (s : string) : bool := Py.forall_chars Py.isspace_char s.

(** A string of the form [dddd-dd-dd]. *)
Definition iso_shaped (s : string) : bool :=
  match s with
  | String y1 (String y2 (String y3 (String y4 (String h1
      (String m1 (String m2 (String h2 (String d1 (String d2
        EmptyString))))))))) =>
      Py.forall_chars Py.isdecimal_char
        (String y1 (String y2 (String y3 (String y4
          (String m1 (String m2 (String d1 (String d2 EmptyString))))))))
      && Ascii.eqb h1 "-" && Ascii.eqb h2 "-"
  | _ => false
  end.

(** The draws of a list that carry a given date string. *)
Definition draws_on (date : string) (draws : list draw) : list draw :=
  List.filter (fun r => String.eqb (rec_date r) date) draws.

Module Scenario.

(** A run in which neither page can be fetched. *)
Definition offline : world :=
  {| http_get := fun _ => None; now_iso := "2025-06-03T14:00:00+00:00" |}.


(** A row of two cells. *)
Definition short_row : node :=
  Tag "tr" []
    [ Tag "td" ["centred"] (Sample.link "Friday May 30th 2025");
      Tag "td" ["centred"] Sample.balls_1 ].

(** A row whose link is no date. *)
Definition undated_row : node :=
  Sample.row (Sample.link "Draw details here") Sample.balls_1 "$189,000,000".

(** A row whose third cell has no [<strong>]. *)
Definition no_strong_row : node :=
  Tag "tr" []
    [ Tag "td" ["centred"] (Sample.link "Friday May 30th 2025");
      Tag "td" ["centred"] Sample.balls_1;
      Tag "td" ["centred"; "nowrap"] [NavigableString "$189,000,000"] ].

(** A row drawn on the cutoff date, one ball span of which is no number. *)
Definition cutoff_row : node :=
  Sample.row (Sample.link "Wednesday January 1st 2025")
    [Sample.ball "ball" "4"; Sample.ball "ball" "x";
     Sample.ball "mega-ball" "06"]
    "$20,000,000".

Definition cutoff_draw : draw :=
  {| rec_date := "2025-01-01"; rec_numbers := [4; 6];
     rec_jackpot := 20000000 |}.

(** A snapshot whose [powerball] array holds an entry that is no object. *)
Definition mixed_snapshot : gmap string json :=
  <["timestamp" := JStr "2025-06-03T14:00:00+00:00"]>
  (<["powerball" := JArr [Sample.mega_draw; JInt 7]]>
   (<["megaMillions" := JArr [Sample.mega_draw]]> ∅)).

(** What the run of [Sample.the_world] writes. *)
Definition published : gmap string json :=
  <["timestamp" := JStr "2025-06-03T14:00:00+00:00"]>
  (<["powerball" := JArr [draw_to_json Sample.good_draw]]>
   (<["megaMillions" := JArr []]> ∅)).

End Scenario.

(** ** Checks of the model on concrete inputs *)

Example strip_example : Py.strip "  powerball " = "powerball".
Proof. reflexivity. Qed.

Example split_example :
  Py.split " Friday  May 30th 2025 " = ["Friday"; "May"; "30th"; "2025"].
Proof. reflexivity. Qed.

Example int_example : Py.int "189000000" = Some 189000000.
Proof. reflexivity. Qed.

Example isdigit_superscript :
  Py.isdigit (String "178" EmptyString) = true
  /\ Py.int (String "178" EmptyString) = None.
Proof. split; reflexivity. Qed.

Example isoformat_example : isoformat (Date 2025 5 30) = "2025-05-30".
Proof. reflexivity. Qed.

Example sub_ordinal_example :
  Re.sub_ordinal "May 30th 2025" = "May 30 2025"
  /\ Re.sub_ordinal "August 1st 2025" = "August 1 2025"
  /\ Re.sub_ordinal "May 30TH 2025" = "May 30TH 2025".
Proof. repeat split; reflexivity. Qed.

Example search_resultBall_example :
  Re.search_resultBall "resultBall" = true
  /\ Re.search_resultBall "resultBall-x" = true
  /\ Re.search_resultBall "resultBalls" = false
  /\ Re.search_resultBall "myresultBall" = false.
Proof. repeat split; reflexivity. Qed.

Example strptime_examples :
  Strptime.strptime "May 30 2025" = Some (Date 2025 5 30)
  /\ Strptime.strptime "may 3 2025" = Some (Date 2025 5 3)
  /\ Strptime.strptime "MARCH 07 2024" = Some (Date 2024 3 7)
  /\ Strptime.strptime "February 30 2025" = None
  /\ Strptime.strptime "May 30 20255" = None
  /\ Strptime.strptime "May 30th 2025" = None
  /\ Strptime.strptime "May 32 2025" = None
  /\ Strptime.strptime "Date Numbers" = None.
Proof. repeat split; reflexivity. Qed.

Example parse_good_page :
  parse_draw_rows (Sample.page [Sample.good_row; Sample.old_row;
                                Sample.no_balls_row; Sample.bad_jackpot_row])
  = Returned [Sample.good_draw].
Proof. vm_compute. reflexivity. Qed.

Example get_lottery_examples :
  get_lottery Sample.snapshot (Some "megaMillions") (Some "2025-01-07")
    = Returned (JArr [Sample.mega_draw])
  /\ get_lottery Sample.snapshot (Some "megaMillions") (Some "2099-01-01")
    = Raised (HTTPException 404 "No megaMillions draws found on 2099-01-01")
  /\ get_lottery Sample.snapshot (Some "unknownGame") None
    = Raised (HTTPException 404 "Game 'unknownGame' not found")
  /\ get_lottery Sample.snapshot (Some "timestamp") (Some "2025-01-07")
    = Raised AttributeError.
Proof. repeat split; vm_compute; reflexivity. Qed.

(** ** Facts about text, the patterns and dates *)

Lemma is_empty_false (s : string) : s <> "" -> Py.is_empty s = false.
Proof. destruct s; [congruence | reflexivity]. Qed.

Lemma is_empty_true (s : string) : Py.is_empty s = true -> s = "".
Proof. destruct s; [reflexivity | discriminate]. Qed.

(** A decimal digit is neither whitespace nor the start of a suffix. *)
Lemma decimal_not_space (c : ascii) :
  Py.isdecimal_char c = true -> Py.isspace_char c = false.
Proof.
  unfold Py.isdecimal_char, Py.isspace_char.
  intros [H1 H2]%andb_prop. apply N.leb_le in H1, H2.
  repeat match goal with
  | |- context [(?a <=? ?b)%N] => destruct (N.leb_spec a b)
  | |- context [(?a =? ?b)%N] => destruct (N.eqb_spec a b)
  end; cbn; try reflexivity; lia.
Qed.

Lemma decimal_not_suffix (a b : ascii) :
  Py.isdecimal_char a = true -> Re.is_ordinal_suffix a b = false.
Proof.
  intros H. unfold Re.is_ordinal_suffix. cbn [String.eqb].
  assert (Hs : Ascii.eqb a "s" = false /\ Ascii.eqb a "n" = false
               /\ Ascii.eqb a "r" = false /\ Ascii.eqb a "t" = false).
  { repeat split; apply Ascii.eqb_neq; intros ->; discriminate. }
  destruct Hs as (-> & -> & -> & ->). reflexivity.
Qed.

(** The characters [digit_char] produces, and their values. *)
Lemma digit_char_cases (n : Z) :
  In (digit_char n) (list_ascii_of_string "0123456789").
Proof.
  unfold digit_char.
  assert (H : 0 <= n mod 10 < 10) by (apply Z.mod_pos_bound; lia).
  assert (Hc : n mod 10 = 0 \/ n mod 10 = 1 \/ n mod 10 = 2 \/ n mod 10 = 3
               \/ n mod 10 = 4 \/ n mod 10 = 5 \/ n mod 10 = 6
               \/ n mod 10 = 7 \/ n mod 10 = 8 \/ n mod 10 = 9) by lia.
  destruct Hc as [-> | [-> | [-> | [-> | [-> | [-> | [-> | [-> | [-> | ->]]]]]]]]];
    cbn; tauto.
Qed.

Lemma digit_char_decimal (n : Z) : Py.isdecimal_char (digit_char n) = true.
Proof.
  pose proof (digit_char_cases n) as H. cbn in H.
  repeat (destruct H as [<- | H]; [reflexivity |]). destruct H.
Qed.

Lemma digit_value_digit_char (n : Z) :
  Py.digit_value (digit_char n) = n mod 10.
Proof.
  unfold Py.digit_value, Py.ord, digit_char.
  assert (H : 0 <= n mod 10 < 10) by (apply Z.mod_pos_bound; lia).
  rewrite N_ascii_embedding by lia. lia.
Qed.

Lemma append_cons (c : ascii) (a b : string) :
  String c a +:+ b = String c (a +:+ b).
Proof. reflexivity. Qed.

Lemma append_nil (b : string) : "" +:+ b = b.
Proof. reflexivity. Qed.

(** *** [split] on tokens separated by one space *)

Lemma is_token_cons (c : ascii) (w : string) :
  is_token (String c w) = true ->
  Py.isspace_char c = false
  /\ (w = "" \/ is_token w = true).
Proof.
  unfold is_token. cbn [Py.is_empty negb andb Py.forall_chars].
  intros [Hc Hw]%andb_prop. apply negb_true_iff in Hc. split; [exact Hc |].
  destruct w as [|c' w']; [by left | right]. exact Hw.
Qed.

(** A token followed by a space is the first part of the split. *)
Lemma split_token_space (w s : string) :
  is_token w = true ->
  Py.split (w +:+ String " " s) = w :: Py.split s.
Proof.
  induction w as [|c w IH]; [discriminate |].
  intros [Hc Hw]%is_token_cons.
  rewrite append_cons. cbn [Py.split]. rewrite Hc.
  destruct Hw as [-> | Hw].
  - reflexivity.
  - destruct w as [|c' w']; [discriminate |].
    apply is_token_cons in Hw as Hw'. destruct Hw' as [Hc' _].
    rewrite append_cons, Hc', <- append_cons.
    by rewrite (IH Hw).
Qed.

Lemma split_token (w : string) :
  is_token w = true -> Py.split w = [w].
Proof.
  induction w as [|c w IH]; [discriminate |].
  intros [Hc Hw]%is_token_cons.
  cbn [Py.split]. rewrite Hc.
  destruct Hw as [-> | Hw]; [reflexivity |].
  destruct w as [|c' w']; [discriminate |].
  apply is_token_cons in Hw as Hw'. destruct Hw' as [Hc' _].
  rewrite Hc'. by rewrite (IH Hw).
Qed.

Lemma is_token_app (a b : string) :
  is_token a = true ->
  Py.forall_chars (fun c => negb (Py.isspace_char c)) b = true ->
  is_token (a +:+ b) = true.
Proof.
  unfold is_token. destruct a as [|c a]; [discriminate |].
  rewrite append_cons. cbn [Py.is_empty negb andb Py.forall_chars].
  intros [Hc Ha]%andb_prop Hb. rewrite Hc. cbn [andb].
  clear Hc. induction a as [|c' a IH]; [exact Hb |].
  rewrite append_cons. cbn [Py.forall_chars] in *.
  apply andb_prop in Ha as [-> Ha]. by apply IH.
Qed.

Lemma decimal_is_token (s : string) :
  s <> "" -> Py.forall_chars Py.isdecimal_char s = true -> is_token s = true.
Proof.
  unfold is_token. destruct s as [|c s]; [congruence |]. intros _.
  cbn [Py.is_empty negb andb].
  generalize (String c s). clear. intros s.
  induction s as [|c s IH]; [reflexivity |].
  cbn [Py.forall_chars]. intros [Hc Hs]%andb_prop.
  by rewrite (decimal_not_space c Hc), IH.
Qed.

(** *** The ordinal suffix is removed after digits only *)

Lemma sub_ordinal_decimal (s : string) :
  Py.forall_chars Py.isdecimal_char s = true -> Re.sub_ordinal s = s.
Proof.
  induction s as [|c s IH]; [reflexivity |].
  cbn [Py.forall_chars]. intros [Hc Hs]%andb_prop.
  cbn [Re.sub_ordinal]. rewrite Hc.
  destruct s as [|a [|b s']]; [reflexivity | by rewrite (IH Hs) |].
  cbn [Py.forall_chars] in Hs. apply andb_prop in Hs as Hs'.
  destruct Hs' as [Ha _].
  by rewrite (decimal_not_suffix a b Ha), (IH Hs).
Qed.

Lemma sub_ordinal_other (p s : string) :
  Py.forall_chars (fun c => negb (Py.isdecimal_char c)) p = true ->
  Re.sub_ordinal (p +:+ s) = p +:+ Re.sub_ordinal s.
Proof.
  induction p as [|c p IH]; [reflexivity |].
  cbn [Py.forall_chars]. intros [Hc Hp]%andb_prop.
  apply negb_true_iff in Hc.
  rewrite append_cons. cbn [Re.sub_ordinal]. rewrite Hc. by rewrite (IH Hp).
Qed.

Lemma sub_ordinal_suffix (ds : string) (a b : ascii) (s : string) :
  ds <> "" -> Py.forall_chars Py.isdecimal_char ds = true ->
  Re.is_ordinal_suffix a b = true ->
  Re.sub_ordinal (ds +:+ String a (String b s)) = ds +:+ Re.sub_ordinal s.
Proof.
  intros Hne Hds Hsuf. induction ds as [|c ds IH]; [congruence |].
  cbn [Py.forall_chars] in Hds. apply andb_prop in Hds as [Hc Hds].
  rewrite append_cons. cbn [Re.sub_ordinal]. rewrite Hc.
  destruct ds as [|c' ds'].
  - rewrite append_nil. by rewrite Hsuf.
  - cbn [Py.forall_chars] in Hds. apply andb_prop in Hds as Hds'.
    destruct Hds' as [Hc' _].
    assert (Hrest : exists x r, ds' +:+ String a (String b s) = String x r).
    { destruct ds'; [rewrite append_nil | rewrite append_cons]; eauto. }
    destruct Hrest as (x & r & Hr).
    rewrite append_cons, Hr, (decimal_not_suffix c' x Hc').
    rewrite <- Hr, <- append_cons.
    rewrite IH; [reflexivity | discriminate | exact Hds].
Qed.

(** *** The branches of the format pattern on a written date *)

(** A month name is matched by its own alternative of group [B]. *)
Lemma re_B_month {R : Type} (m : nat) (r : string)
    (k : string -> string -> option R) (x : R) :
  (1 <= m <= 12)%nat ->
  k (nth m Strptime.f_month "") r = Some x ->
  Strptime.re_B Strptime.B_alternatives (nth m Strptime.month_name "" +:+ r) k
  = Some x.
Proof.
  intros Hm Hk.
  do 13 (destruct m as [|m]; [try lia; lazy in Hk |- *; by rewrite Hk |]).
  lia.
Qed.

(** One space and a day of the month, up to the next space. *)
Lemma re_spaces1_d_day {R : Type} (d : Z) (r : string)
    (k : Z -> string -> option R) (x : R) :
  1 <= d <= 31 ->
  k d (String " " r) = Some x ->
  Strptime.re_spaces1 (String " " (decimal_day d +:+ String " " r))
    (fun r2 => Strptime.re_d r2 k)
  = Some x.
Proof.
  intros Hd Hk.
  assert (Hn : exists n : nat, d = Z.of_nat n /\ (1 <= n <= 31)%nat)
    by (exists (Z.to_nat d); lia).
  destruct Hn as (n & -> & Hn).
  do 32 (destruct n as [|n]; [try lia; lazy in Hk |- *; by rewrite Hk |]).
  lia.
Qed.

Lemma pad4_value (y : Z) :
  0 <= y <= 9999 -> Py.digits_value 0 (pad4 y) = y.
Proof.
  intros Hy. unfold pad4. cbn [Py.digits_value].
  rewrite !digit_value_digit_char.
  Z.div_mod_to_equations. lia.
Qed.

(** One space and a year of four digits, up to the end. *)
Lemma re_spaces1_Y {R : Type} (y : Z) (k : Z -> string -> option R) :
  0 <= y <= 9999 ->
  Strptime.re_spaces1 (String " " (pad4 y)) (fun r4 => Strptime.re_Y r4 k)
  = k y "".
Proof.
  intros Hy. pose proof (pad4_value y Hy) as Hv. unfold pad4 in *.
  cbn [Strptime.re_spaces1 Strptime.re_spaces].
  change (Py.isspace_char " ") with true. cbn iota.
  rewrite (decimal_not_space _ (digit_char_decimal (y / 1000))).
  cbn [Strptime.re_Y]. rewrite !digit_char_decimal. cbn [andb].
  by rewrite Hv.
Qed.

Lemma append_assoc (a b c : string) : (a +:+ b) +:+ c = a +:+ (b +:+ c).
Proof.
  induction a as [|x a IH]; [reflexivity |].
  by rewrite !append_cons, IH.
Qed.

Lemma month_name_shape (m : nat) :
  (1 <= m <= 12)%nat ->
  is_token (nth m Strptime.month_name "") = true
  /\ Py.forall_chars (fun c => negb (Py.isdecimal_char c))
       (nth m Strptime.month_name "") = true
  /\ Strptime.index (nth m Strptime.f_month "") Strptime.f_month
     = Some (Z.of_nat m).
Proof.
  intros Hm.
  do 13 (destruct m as [|m]; [try lia; by vm_compute |]).
  lia.
Qed.

Lemma decimal_day_shape (d : Z) :
  decimal_day d <> ""
  /\ Py.forall_chars Py.isdecimal_char (decimal_day d) = true.
Proof.
  unfold decimal_day, pad2. destruct (d <? 10); split; try discriminate;
    cbn [Py.forall_chars]; by rewrite !digit_char_decimal.
Qed.

Lemma pad4_shape (y : Z) :
  pad4 y <> "" /\ Py.forall_chars Py.isdecimal_char (pad4 y) = true.
Proof.
  unfold pad4. split; [discriminate |].
  cbn [Py.forall_chars]. by rewrite !digit_char_decimal.
Qed.

Lemma ordinal_suffix_shape (suffix : string) :
  In suffix ordinal_suffixes ->
  exists a b : ascii,
    suffix = String a (String b "")
    /\ Re.is_ordinal_suffix a b = true
    /\ Py.isspace_char a = false /\ Py.isspace_char b = false.
Proof.
  cbn. intros [<- | [<- | [<- | [<- | []]]]]; do 2 eexists; by repeat split.
Qed.

Lemma valid_date_bounds (y m d : Z) :
  valid_date y m d = true ->
  1 <= y <= 9999 /\ 1 <= m <= 12 /\ 1 <= d <= 31.
Proof.
  unfold valid_date, days_in_month. intros H.
  repeat (apply andb_prop in H as [H ?]).
  destruct (m =? 2); [destruct (is_leap y) |];
    [| | destruct ((m =? 4) || (m =? 6) || (m =? 9) || (m =? 11))]; lia.
Qed.

Lemma space_append (s : string) : " " +:+ s = String " " s.
Proof. reflexivity. Qed.

(** *** The three steps of the parser on a well-formed label *)

Lemma split_date_label (weekday suffix : string) (y m d : Z) :
  is_token weekday = true -> In suffix ordinal_suffixes ->
  1 <= m <= 12 ->
  Py.split (date_label weekday y m d suffix)
  = [weekday; nth (Z.to_nat m) Strptime.month_name "";
     decimal_day d +:+ suffix; pad4 y].
Proof.
  intros Hw (a & b & -> & _ & Ha & Hb)%ordinal_suffix_shape Hm.
  destruct (month_name_shape (Z.to_nat m)) as (Hmon & _ & _); [lia |].
  destruct (decimal_day_shape d) as [Hd1 Hd2].
  destruct (pad4_shape y) as [Hy1 Hy2].
  unfold date_label. rewrite !space_append.
  rewrite (split_token_space _ _ Hw), (split_token_space _ _ Hmon).
  rewrite <- append_assoc, split_token_space.
  - by rewrite (split_token _ (decimal_is_token _ Hy1 Hy2)).
  - apply is_token_app; [by apply decimal_is_token |].
    cbn [Py.forall_chars]. by rewrite Ha, Hb.
Qed.

Lemma sub_ordinal_date_part (mon suffix : string) (y d : Z) :
  Py.forall_chars (fun c => negb (Py.isdecimal_char c)) mon = true ->
  In suffix ordinal_suffixes ->
  Re.sub_ordinal
    (mon +:+ String " " ((decimal_day d +:+ suffix) +:+ String " " (pad4 y)))
  = mon +:+ String " " (decimal_day d +:+ String " " (pad4 y)).
Proof.
  intros Hmon (a & b & -> & Hsuf & _)%ordinal_suffix_shape.
  destruct (decimal_day_shape d) as [Hd1 Hd2].
  destruct (pad4_shape y) as [_ Hy2].
  rewrite (sub_ordinal_other _ _ Hmon).
  assert (Hsp : forall s, Re.sub_ordinal (String " " s)
                          = String " " (Re.sub_ordinal s)) by reflexivity.
  rewrite Hsp, append_assoc, !append_cons, append_nil.
  rewrite (sub_ordinal_suffix _ a b _ Hd1 Hd2 Hsuf).
  by rewrite Hsp, (sub_ordinal_decimal _ Hy2).
Qed.

(** [strptime] reads a written valid date back. *)
Lemma strptime_date_part (y m d : Z) :
  valid_date y m d = true ->
  Strptime.strptime
    (nth (Z.to_nat m) Strptime.month_name ""
     +:+ String " " (decimal_day d +:+ String " " (pad4 y)))
  = Some (Date y m d).
Proof.
  intros Hvalid.
  destruct (valid_date_bounds y m d Hvalid) as (Hy & Hm & Hd).
  destruct (month_name_shape (Z.to_nat m)) as (_ & _ & Hidx); [lia |].
  unfold Strptime.strptime.
  assert (Hmatch :
    Strptime.format_regex_match
      (nth (Z.to_nat m) Strptime.month_name ""
       +:+ String " " (decimal_day d +:+ String " " (pad4 y)))
    = Some (nth (Z.to_nat m) Strptime.f_month "", d, y, "")).
  { unfold Strptime.format_regex_match.
    apply re_B_month; [lia |].
    apply re_spaces1_d_day; [lia |].
    rewrite re_spaces1_Y by lia. reflexivity. }
  rewrite Hmatch. cbn [Py.is_empty]. rewrite Hidx.
  rewrite Z2Nat.id by lia. unfold date_new. by rewrite Hvalid.
Qed.

(** ** The query handler *)

Section GetLottery.
Variable history : gmap string json.

(** A query without a game returns the object as it is. *)
Lemma get_lottery_no_game (date : option string) :
  get_lottery history None date = Returned (JObj history).
Proof. reflexivity. Qed.

(** A game whose stripped name is no key of the object. *)
Lemma get_lottery_unknown (game : string) (date : option string) :
  game <> "" ->
  history !! Py.strip game = None ->
  get_lottery history (Some game) date
  = Raised (HTTPException 404 ("Game '" +:+ game +:+ "' not found")).
Proof.
  intros Hg Hk. unfold get_lottery.
  rewrite (is_empty_false _ Hg), Hk. reflexivity.
Qed.

(** A game-only query of a known key returns what the key holds. *)
Lemma get_lottery_known (game : string) (entries : json) :
  game <> "" ->
  history !! Py.strip game = Some entries ->
  get_lottery history (Some game) None = Returned entries.
Proof.
  intros Hg Hk. unfold get_lottery.
  rewrite (is_empty_false _ Hg), Hk. reflexivity.
Qed.

(** An empty date is no date. *)
Lemma get_lottery_empty_date (game : string) (entries : json) :
  game <> "" ->
  history !! Py.strip game = Some entries ->
  get_lottery history (Some game) (Some "") = Returned entries.
Proof.
  intros Hg Hk. unfold get_lottery.
  rewrite (is_empty_false _ Hg), Hk. reflexivity.
Qed.

(** Over an array of objects the comprehension is a filter. *)
Lemma filter_by_date_objects (date : string) (items : list json) :
  forallb is_object items = true ->
  filter_by_date date items = Returned (List.filter (has_date date) items).
Proof.
  induction items as [|e items IH]; [reflexivity |].
  cbn [forallb]. intros [He Hitems]%andb_prop.
  destruct e; try discriminate.
  cbn [filter_by_date List.filter has_date]. rewrite (IH Hitems).
  destruct (members !! "date") as [[]|]; try reflexivity.
  destruct (String.eqb s date); reflexivity.
Qed.

Lemma get_lottery_dated (game date : string) (items : list json) :
  game <> "" -> date <> "" ->
  history !! Py.strip game = Some (JArr items) ->
  forallb is_object items = true ->
  get_lottery history (Some game) (Some date)
  = match List.filter (has_date date) items with
    | [] => Raised (HTTPException 404
              ("No " +:+ Py.strip game +:+ " draws found on " +:+ date))
    | filtered => Returned (JArr filtered)
    end.
Proof.
  intros Hg Hd Hk Hobj. unfold get_lottery.
  rewrite (is_empty_false _ Hg), Hk, (is_empty_false _ Hd).
  cbn [filter_entries]. rewrite (filter_by_date_objects _ _ Hobj).
  destruct (List.filter (has_date date) items); reflexivity.
Qed.
End GetLottery.

(** The keys of the object a run of the fetcher writes. *)
Lemma main_keys (w : world) (snapshot : gmap string json) :
  main w = Returned snapshot ->
  dom snapshot = ({["timestamp"; "powerball"; "megaMillions"]} : gset string).
Proof.
  unfold main. intros H.
  destruct (fetch_lottery_history w POWERBALL_URL); [|discriminate].
  destruct (fetch_lottery_history w MEGAMILLIONS_URL); [|discriminate].
  injection H as <-.
  rewrite !dom_insert_L, dom_empty_L. set_solver.
Qed.

(** C3, as amended.  A request with a non-empty [game]: the key looked up
    is [game] stripped of surrounding whitespace.  If no such key is in
    the snapshot the answer is a 404 naming [game] as it was given.  If the
    key is there and no date (or an empty one) is given, the value under
    the key is returned.  If a non-empty date is given and the value is an
    array of objects, the answer is a 404 naming the key and the date when
    no entry has a [date] field equal to the date, and the array of the
    entries that have one otherwise. *)
Theorem get_lottery_game_query (history : gmap string json) (game : string)
    (date : option string) :
  game <> "" ->
  (history !! Py.strip game = None ->
   get_lottery history (Some game) date
   = Raised (HTTPException 404 ("Game '" +:+ game +:+ "' not found")))
  /\ (forall entries : json,
        history !! Py.strip game = Some entries ->
        (date = None \/ date = Some "" ->
         get_lottery history (Some game) date = Returned entries)
        /\ (forall (d : string) (items : list json),
              date = Some d -> d <> "" ->
              entries = JArr items -> forallb is_object items = true ->
              (List.filter (has_date d) items = [] ->
               get_lottery history (Some game) date
               = Raised (HTTPException 404
                   ("No " +:+ Py.strip game +:+ " draws found on " +:+ d)))
              /\ (List.filter (has_date d) items <> [] ->
                  get_lottery history (Some game) date
                  = Returned (JArr (List.filter (has_date d) items))))).
Proof.
  intros Hg. split.
  - intros Hk. by apply get_lottery_unknown.
  - intros entries Hk. split.
    + intros [-> | ->].
      * by apply get_lottery_known.
      * by apply get_lottery_empty_date.
    + intros d items -> Hd -> Hobj.
      rewrite (get_lottery_dated history game d items Hg Hd Hk Hobj).
      split; intros Hf.
      * by rewrite Hf.
      * destruct (List.filter (has_date d) items); [congruence | reflexivity].
Qed.

Lemma get_lottery_game_query_witness :
  get_lottery Sample.snapshot (Some "megaMillions") (Some "2025-01-07")
  = Returned (JArr [Sample.mega_draw])
  /\ get_lottery Sample.snapshot (Some "unknownGame") None
     = Raised (HTTPException 404 "Game 'unknownGame' not found").
Proof.
  split.
  - refine (proj2 (proj2 (proj2
      (get_lottery_game_query Sample.snapshot "megaMillions"
         (Some "2025-01-07") _) (JArr [Sample.mega_draw]) _)
      "2025-01-07" [Sample.mega_draw] _ _ _ _) _).
    + discriminate.
    + vm_compute; reflexivity.
    + reflexivity.
    + discriminate.
    + reflexivity.
    + reflexivity.
    + vm_compute; discriminate.
  - refine (proj1 (get_lottery_game_query Sample.snapshot "unknownGame"
                     None _) _).
    + discriminate.
    + vm_compute; reflexivity.
Defined.

(** C3, as stated, fails on two requests that carry a game parameter whose
    value is no key of the snapshot: the empty string gets the whole
    snapshot and a padded name gets the array of the stripped name. *)
Lemma get_lottery_absent_key_not_404 :
  (Sample.snapshot !! "" = None
   /\ get_lottery Sample.snapshot (Some "") None
      = Returned (JObj Sample.snapshot)
   /\ ~ exists detail,
        get_lottery Sample.snapshot (Some "") None
        = Raised (HTTPException 404 detail))
  /\ (Sample.snapshot !! " powerball " = None
      /\ get_lottery Sample.snapshot (Some " powerball ") None
         = Returned (JArr [])
      /\ ~ exists detail,
           get_lottery Sample.snapshot (Some " powerball ") None
           = Raised (HTTPException 404 detail)).
Proof.
  split; (split; [vm_compute; reflexivity | split; [vm_compute; reflexivity |]]).
  - intros [detail H]. vm_compute in H. discriminate.
  - intros [detail H]. vm_compute in H. discriminate.
Qed.

(** C6.  When [powerball] maps to an empty array, a query for the game
    alone returns that empty array; and a query for a game alone is
    answered with a 404 exactly when the stripped name is no key of the
    snapshot. *)
Theorem get_lottery_empty_array (history : gmap string json) :
  history !! "powerball" = Some (JArr []) ->
  get_lottery history (Some "powerball") None = Returned (JArr [])
  /\ forall game : string, game <> "" ->
       ((exists detail,
           get_lottery history (Some game) None
           = Raised (HTTPException 404 detail))
        <-> history !! Py.strip game = None).
Proof.
  intros Hp. split.
  - by apply get_lottery_known.
  - intros game Hg. split.
    + intros [detail H].
      destruct (history !! Py.strip game) as [entries|] eqn:Hk; [|done].
      rewrite (get_lottery_known history game entries Hg Hk) in H.
      discriminate.
    + intros Hk. eexists. by apply get_lottery_unknown.
Qed.

Lemma get_lottery_empty_array_witness :
  Sample.snapshot !! "powerball" = Some (JArr [])
  /\ get_lottery Sample.snapshot (Some "powerball") None = Returned (JArr []).
Proof.
  split; [vm_compute; reflexivity |].
  apply (get_lottery_empty_array Sample.snapshot).
  vm_compute; reflexivity.
Defined.

(** C7.  A query without parameters returns the snapshot as it is stored,
    and the snapshot a run of the fetcher writes has exactly the keys
    [timestamp], [powerball] and [megaMillions]. *)
Theorem get_lottery_whole_snapshot (w : world) (snapshot : gmap string json) :
  main w = Returned snapshot ->
  get_lottery snapshot None None = Returned (JObj snapshot)
  /\ dom snapshot
     = ({["timestamp"; "powerball"; "megaMillions"]} : gset string).
Proof.
  intros Hmain. split.
  - apply get_lottery_no_game.
  - by apply (main_keys w).
Qed.

Lemma get_lottery_whole_snapshot_witness :
  exists snapshot : gmap string json,
    main Sample.the_world = Returned snapshot
    /\ get_lottery snapshot None None = Returned (JObj snapshot)
    /\ dom snapshot
       = ({["timestamp"; "powerball"; "megaMillions"]} : gset string).
Proof.
  exists (<["timestamp" := JStr "2025-06-03T14:00:00+00:00"]>
          (<["powerball" := JArr [draw_to_json Sample.good_draw]]>
           (<["megaMillions" := JArr []]> ∅))).
  assert (Hrun : main Sample.the_world
            = Returned (<["timestamp" := JStr "2025-06-03T14:00:00+00:00"]>
                (<["powerball" := JArr [draw_to_json Sample.good_draw]]>
                 (<["megaMillions" := JArr []]> ∅))))
    by (vm_compute; reflexivity).
  split; [exact Hrun |].
  exact (get_lottery_whole_snapshot Sample.the_world _ Hrun).
Defined.

(** C8.  An empty [game] is answered as an omitted one, with the whole
    snapshot and never with a 404. *)
Theorem get_lottery_empty_game (history : gmap string json)
    (date : option string) :
  get_lottery history (Some "") date = get_lottery history None date
  /\ get_lottery history (Some "") date = Returned (JObj history)
  /\ ~ exists detail,
       get_lottery history (Some "") date = Raised (HTTPException 404 detail).
Proof.
  repeat split. intros [detail H]. discriminate.
Qed.

(** C9.  The key looked up is the game parameter stripped of leading and
    trailing whitespace: [" powerball "] is looked up as ["powerball"], a
    known stripped name returns its value, and an unknown one is answered
    with a 404 whose message carries the parameter as it was given. *)
Theorem get_lottery_strips_game (history : gmap string json) (game : string)
    (date : option string) :
  game <> "" ->
  Py.strip " powerball " = "powerball"
  /\ (forall entries : json,
        history !! Py.strip game = Some entries ->
        get_lottery history (Some game) None = Returned entries)
  /\ (history !! Py.strip game = None ->
      get_lottery history (Some game) date
      = Raised (HTTPException 404 ("Game '" +:+ game +:+ "' not found"))).
Proof.
  intros Hg. split; [reflexivity | split].
  - intros entries Hk. by apply get_lottery_known.
  - intros Hk. by apply get_lottery_unknown.
Qed.

Lemma get_lottery_strips_game_witness :
  get_lottery Sample.snapshot (Some " megaMillions ") None
  = Returned (JArr [Sample.mega_draw])
  /\ get_lottery Sample.snapshot (Some " lotto ") (Some "2025-01-07")
     = Raised (HTTPException 404 "Game ' lotto ' not found").
Proof.
  split.
  - refine (proj1 (proj2 (get_lottery_strips_game Sample.snapshot
                     " megaMillions " None _)) _ _).
    + discriminate.
    + vm_compute; reflexivity.
  - refine (proj2 (proj2 (get_lottery_strips_game Sample.snapshot
                     " lotto " (Some "2025-01-07") _)) _).
    + discriminate.
    + vm_compute; reflexivity.
Defined.

(** ** The row parser: what a row that is kept went through *)

Lemma isdecimal_digit_value (c : ascii) :
  Py.isdecimal_char c = true -> 0 <= Py.digit_value c <= 9.
Proof.
  unfold Py.isdecimal_char, Py.digit_value.
  intros [H1 H2]%andb_prop.
  apply N.leb_le in H1, H2. lia.
Qed.

Lemma digits_value_nonneg (s : string) :
  forall acc : Z,
    Py.forall_chars Py.isdecimal_char s = true ->
    0 <= acc -> 0 <= Py.digits_value acc s.
Proof.
  induction s as [|c s IH]; intros acc Hs Hacc; [exact Hacc |].
  cbn [Py.forall_chars] in Hs. apply andb_prop in Hs as [Hc Hs].
  cbn [Py.digits_value]. apply IH; [exact Hs |].
  pose proof (isdecimal_digit_value c Hc). lia.
Qed.

Lemma int_nonneg (s : string) (n : Z) : Py.int s = Some n -> 0 <= n.
Proof.
  unfold Py.int. destruct (Py.isdecimal s) eqn:Hs; [|discriminate].
  intros [= <-]. unfold Py.isdecimal in Hs.
  apply andb_prop in Hs as [_ Hs]. by apply digits_value_nonneg.
Qed.

Lemma date_new_valid (y m d : Z) (x : date) :
  date_new y m d = Some x ->
  valid_date (year x) (month x) (day x) = true.
Proof.
  unfold date_new. destruct (valid_date y m d) eqn:Hv; [|discriminate].
  intros [= <-]. exact Hv.
Qed.

Lemma strptime_valid (s : string) (x : date) :
  Strptime.strptime s = Some x ->
  valid_date (year x) (month x) (day x) = true.
Proof.
  unfold Strptime.strptime.
  destruct (Strptime.format_regex_match s) as [[[[B d] Y] rest]|];
    [|discriminate].
  destruct (Py.is_empty rest); [|discriminate].
  destruct (Strptime.index B Strptime.f_month); [|discriminate].
  apply date_new_valid.
Qed.

(** What [row_date] read when it found a date. *)
Lemma row_date_some (tr : node) (x : date) :
  row_date tr = Some x ->
  exists date_td a_tag : node,
    (3 <= length (Soup.find_all "td" tr))%nat
    /\ Soup.find_all "td" tr !! 0%nat = Some date_td
    /\ Soup.find "a" date_td = Some a_tag
    /\ Soup.get_text "" a_tag <> ""
    /\ valid_date (year x) (month x) (day x) = true.
Proof.
  unfold row_date.
  destruct (Z.of_nat (length (Soup.find_all "td" tr)) <? 3) eqn:Hlen;
    [discriminate |].
  destruct (Soup.find_all "td" tr !! 0%nat) as [date_td|] eqn:Htd;
    [|discriminate].
  destruct (Soup.find "a" date_td) as [a_tag|] eqn:Ha; [|discriminate].
  destruct (Py.is_empty (Soup.get_text "" a_tag)) eqn:Hempty; [discriminate |].
  destruct (Z.of_nat (length (Py.split (Soup.get_text " " a_tag))) <? 3);
    [discriminate |].
  intros Hparse. exists date_td, a_tag.
  split; [apply Z.ltb_ge in Hlen; lia |].
  split; [done |]. split; [done |]. split.
  - intros Heq. rewrite Heq in Hempty. discriminate.
  - by apply strptime_valid in Hparse.
Qed.

(** What [parse_row] went through when it appended a record. *)
Lemma parse_row_some (tr : node) (r : draw) :
  parse_row tr = Returned (Some r) ->
  exists (x : date) (numbers_td : node),
    row_date tr = Some x
    /\ date_ltb x CUTOFF_DATE = false
    /\ rec_date r = isoformat x
    /\ Soup.find_all "td" tr !! 1%nat = Some numbers_td
    /\ collect_numbers
         (Soup.find_all_class "span" Re.search_resultBall numbers_td) []
       = Returned (rec_numbers r)
    /\ rec_numbers r <> []
    /\ 0 <= rec_jackpot r.
Proof.
  unfold parse_row.
  destruct (row_date tr) as [x|] eqn:Hdate; [|discriminate].
  destruct (date_ltb x CUTOFF_DATE) eqn:Hcut; [discriminate |].
  destruct (Soup.find_all "td" tr !! 1%nat) as [numbers_td|] eqn:Htd;
    [|discriminate].
  destruct (Soup.find_all "td" tr !! 2%nat) as [jackpot_td|]; [|discriminate].
  destruct (collect_numbers _ []) as [numbers|] eqn:Hnum; [|discriminate].
  destruct (Z.of_nat (length numbers) =? 0) eqn:Hlen; [discriminate |].
  destruct (Soup.find "strong" jackpot_td) as [strong|]; [|discriminate].
  destruct (negb (Py.isdigit _)); [discriminate |].
  destruct (Py.int _) as [jackpot_amount|] eqn:Hint; [|discriminate].
  intros [= <-]. exists x, numbers_td. cbn.
  do 5 (split; [done |]). split.
  - intros ->. discriminate.
  - by apply int_nonneg in Hint.
Qed.

Lemma parse_row_invariant (tr : node) (r : draw) :
  parse_row tr = Returned (Some r) -> draw_invariant r.
Proof.
  intros (x & numbers_td & Hdate & Hcut & Hiso & _ & _ & Hne & Hjack)
    %parse_row_some.
  apply row_date_some in Hdate as (_ & _ & _ & _ & _ & _ & Hvalid).
  repeat split; try done. by exists x.
Qed.

(** The loop keeps a property that every appended record has. *)
Lemma parse_rows_Forall (P : draw -> Prop) (trs : list node) :
  (forall tr r, parse_row tr = Returned (Some r) -> P r) ->
  forall acc results : list draw,
    Forall P acc ->
    parse_rows trs acc = Returned results ->
    Forall P results.
Proof.
  intros Hrow. induction trs as [|tr trs IH]; intros acc results Hacc.
  - intros [= <-]. exact Hacc.
  - cbn [parse_rows].
    destruct (parse_row tr) as [[r|]|] eqn:Htr; [| |discriminate].
    + apply IH. apply Forall_app. split; [exact Hacc |].
      constructor; [|constructor]. by apply (Hrow tr).
    + by apply IH.
Qed.

(** Spans without digit text leave the list of numbers as it is. *)
Lemma collect_numbers_no_digits (spans : list node) :
  forall acc : list Z,
    List.filter (fun span => Py.isdigit (Soup.get_text "" span)) spans = [] ->
    collect_numbers spans acc = Returned acc.
Proof.
  induction spans as [|span spans IH]; intros acc; [reflexivity |].
  cbn [List.filter collect_numbers].
  destruct (Py.isdigit (Soup.get_text "" span)); [discriminate |].
  apply IH.
Qed.

Lemma parse_row_before_cutoff (tr : node) (x : date) :
  row_date tr = Some x -> date_ltb x CUTOFF_DATE = true ->
  parse_row tr = Returned None.
Proof. intros Hd Hc. unfold parse_row. by rewrite Hd, Hc. Qed.

Lemma parse_row_no_numbers (tr : node) :
  numeric_ball_spans tr = [] -> parse_row tr = Returned None.
Proof.
  unfold numeric_ball_spans, parse_row. intros Hspans.
  destruct (row_date tr) as [x|]; [|reflexivity].
  destruct (date_ltb x CUTOFF_DATE); [reflexivity |].
  destruct (Soup.find_all "td" tr !! 1%nat) as [numbers_td|]; [|reflexivity].
  destruct (Soup.find_all "td" tr !! 2%nat) as [jackpot_td|]; [|reflexivity].
  by rewrite (collect_numbers_no_digits _ [] Hspans).
Qed.

Lemma parse_row_no_anchor (tr date_td : node) :
  Soup.find_all "td" tr !! 0%nat = Some date_td ->
  Soup.find "a" date_td = None ->
  parse_row tr = Returned None.
Proof.
  intros Htd Ha. unfold parse_row, row_date. rewrite Htd, Ha.
  by destruct (Z.of_nat (length (Soup.find_all "td" tr)) <? 3).
Qed.

Lemma parse_row_empty_anchor (tr date_td a_tag : node) :
  Soup.find_all "td" tr !! 0%nat = Some date_td ->
  Soup.find "a" date_td = Some a_tag ->
  Soup.get_text "" a_tag = "" ->
  parse_row tr = Returned None.
Proof.
  intros Htd Ha Htxt. unfold parse_row, row_date. rewrite Htd, Ha, Htxt.
  by destruct (Z.of_nat (length (Soup.find_all "td" tr)) <? 3).
Qed.

(** C2.  Every record [parse_draw_rows] returns has a number, a jackpot
    that is not negative and the ISO form of a valid date on or after
    2025-01-01; a row dated before the cutoff and a row without a numeric
    ball span are skipped, whatever their other cells hold. *)
Theorem parse_draw_rows_invariant (html : list node) (results : list draw) :
  parse_draw_rows html = Returned results ->
  Forall draw_invariant results
  /\ (forall (tr : node) (x : date),
        row_date tr = Some x -> date_ltb x CUTOFF_DATE = true ->
        parse_row tr = Returned None)
  /\ (forall tr : node,
        numeric_ball_spans tr = [] -> parse_row tr = Returned None).
Proof.
  intros Hparse. split; [|split].
  - unfold parse_draw_rows in Hparse.
    eapply parse_rows_Forall; [apply parse_row_invariant | | exact Hparse].
    constructor.
  - apply parse_row_before_cutoff.
  - apply parse_row_no_numbers.
Qed.

Lemma parse_draw_rows_invariant_witness :
  parse_draw_rows (Sample.page [Sample.good_row; Sample.old_row;
                                Sample.no_balls_row])
  = Returned [Sample.good_draw]
  /\ Forall draw_invariant [Sample.good_draw]
  /\ parse_row Sample.old_row = Returned None
  /\ parse_row Sample.no_balls_row = Returned None.
Proof.
  assert (Hrun : parse_draw_rows (Sample.page [Sample.good_row; Sample.old_row;
                                               Sample.no_balls_row])
                 = Returned [Sample.good_draw])
    by (vm_compute; reflexivity).
  destruct (parse_draw_rows_invariant _ _ Hrun) as (Hinv & Hold & Hballs).
  split; [exact Hrun | split; [exact Hinv | split]].
  - apply (Hold Sample.old_row (Date 2024 12 31)); vm_compute; reflexivity.
  - apply (Hballs Sample.no_balls_row). vm_compute; reflexivity.
Defined.

(** C10.  A row yields a record only if its first cell holds an [<a>]
    element whose text is not empty; a first cell without such an element
    makes the row skipped, whatever text the cell carries. *)
Theorem parse_row_needs_anchor (tr : node) :
  (forall r : draw,
     parse_row tr = Returned (Some r) ->
     exists date_td a_tag : node,
       Soup.find_all "td" tr !! 0%nat = Some date_td
       /\ Soup.find "a" date_td = Some a_tag
       /\ Soup.get_text "" a_tag <> "")
  /\ (forall date_td : node,
        Soup.find_all "td" tr !! 0%nat = Some date_td ->
        Soup.find "a" date_td = None ->
        parse_row tr = Returned None).
Proof.
  split.
  - intros r (x & _ & Hdate & _)%parse_row_some.
    apply row_date_some in Hdate
      as (date_td & a_tag & _ & Htd & Ha & Htxt & _).
    by exists date_td, a_tag.
  - apply parse_row_no_anchor.
Qed.

Lemma parse_row_needs_anchor_witness :
  Soup.get_text "" (Tag "td" [] [NavigableString "Friday May 30th 2025"])
  = "Friday May 30th 2025"
  /\ parse_row Sample.plain_label_row = Returned None.
Proof.
  split; [reflexivity |].
  refine (proj2 (parse_row_needs_anchor Sample.plain_label_row)
            (Tag "td" ["centred"] [NavigableString "Friday May 30th 2025"])
            _ _).
  - vm_compute; reflexivity.
  - vm_compute; reflexivity.
Defined.

(** ** Where the parser raises *)

Lemma int_none (s : string) :
  Py.isdigit s = true -> Py.int s = None -> digit_not_decimal s.
Proof.
  unfold Py.int. intros Hd. destruct (Py.isdecimal s) eqn:Hs; [discriminate |].
  by split.
Qed.

Lemma collect_numbers_raised (spans : list node) :
  forall (acc : list Z) (e : exn),
    collect_numbers spans acc = Raised e ->
    e = ValueError
    /\ exists span, In span spans /\ digit_not_decimal (Soup.get_text "" span).
Proof.
  induction spans as [|span spans IH]; intros acc e; [discriminate |].
  cbn [collect_numbers].
  destruct (Py.isdigit (Soup.get_text "" span)) eqn:Hd.
  - destruct (Py.int (Soup.get_text "" span)) as [n|] eqn:Hint.
    + intros (-> & span' & Hin & Hbad)%IH. split; [done |].
      exists span'. split; [by right | done].
    + intros [= <-]. split; [done |]. exists span.
      split; [by left | by apply int_none].
  - intros (-> & span' & Hin & Hbad)%IH. split; [done |].
    exists span'. split; [by right | done].
Qed.

(** The only exception that leaves [parse_row] is the [ValueError] of
    [int] on the text of a ball span or on the jackpot figure. *)
Lemma parse_row_raised (tr : node) (e : exn) :
  parse_row tr = Raised e ->
  e = ValueError
  /\ ((exists numbers_td span,
         Soup.find_all "td" tr !! 1%nat = Some numbers_td
         /\ In span (Soup.find_all_class "span" Re.search_resultBall numbers_td)
         /\ digit_not_decimal (Soup.get_text "" span))
      \/ (exists jackpot_td strong,
            Soup.find_all "td" tr !! 2%nat = Some jackpot_td
            /\ Soup.find "strong" jackpot_td = Some strong
            /\ digit_not_decimal
                 (Py.remove_char "," (Py.remove_char "$"
                    (Soup.get_text "" strong))))).
Proof.
  unfold parse_row.
  destruct (row_date tr) as [x|]; [|discriminate].
  destruct (date_ltb x CUTOFF_DATE); [discriminate |].
  destruct (Soup.find_all "td" tr !! 1%nat) as [numbers_td|]; [|discriminate].
  destruct (Soup.find_all "td" tr !! 2%nat) as [jackpot_td|]; [|discriminate].
  destruct (collect_numbers _ []) as [numbers|e'] eqn:Hnum.
  - destruct (Z.of_nat (length numbers) =? 0); [discriminate |].
    destruct (Soup.find "strong" jackpot_td) as [strong|] eqn:Hstrong;
      [|discriminate].
    destruct (Py.isdigit _) eqn:Hd; [|discriminate]. cbn [negb].
    destruct (Py.int _) as [n|] eqn:Hint; [discriminate |].
    intros [= <-]. split; [done |]. right. exists jackpot_td, strong.
    split; [done |]. split; [done |]. by apply int_none.
  - intros [= <-]. apply collect_numbers_raised in Hnum as (-> & span & Hin & Hbad).
    split; [done |]. left. by exists numbers_td, span.
Qed.




(** C4.  The two jackpot strings of the specification behave as it says:
    ["$1,000,00X"] drops the row and ["$189,000,000"] yields 189000000.
    A jackpot whose last character is U+00B2 is neither dropped nor
    parsed: what is left after removing [$] and [,] passes [isdigit()],
    [int] refuses it, and the [ValueError] leaves [parse_draw_rows]. *)
Theorem jackpot_superscript_digit_raises :
  parse_row Sample.bad_jackpot_row = Returned None
  /\ parse_row Sample.good_row = Returned (Some Sample.good_draw)
  /\ rec_jackpot Sample.good_draw = 189000000
  /\ Py.isdigit
       (Py.remove_char "," (Py.remove_char "$" ("$1,000,00" +:+ Sample.sup2)))
     = true
  /\ parse_row Sample.superscript_jackpot_row = Raised ValueError
  /\ parse_draw_rows (Sample.page [Sample.superscript_jackpot_row])
     = Raised ValueError.
Proof. repeat split; vm_compute; reflexivity. Qed.

(** C5.  One row whose jackpot figure or ball text carries a superscript
    digit makes the whole parse raise: the record of the well-formed row
    that stands before it on the page is lost with it. *)
Theorem parse_draw_rows_aborts_on_superscript_digit :
  parse_draw_rows (Sample.page [Sample.good_row]) = Returned [Sample.good_draw]
  /\ parse_draw_rows
       (Sample.page [Sample.good_row; Sample.superscript_jackpot_row])
     = Raised ValueError
  /\ parse_draw_rows
       (Sample.page [Sample.good_row; Sample.superscript_ball_row])
     = Raised ValueError.
Proof. repeat split; vm_compute; reflexivity. Qed.

(** ** The date of a row *)

Lemma stripped_strings_not_empty (n : node) (s : string) :
  In s (Soup.stripped_strings n) -> s <> "".
Proof.
  unfold Soup.stripped_strings. rewrite in_flat_map.
  intros (k & _ & Hk). destruct k as [t | t | name cls kids]; try destruct Hk.
  destruct (Py.is_empty (Py.strip t)) eqn:He; [destruct Hk |].
  destruct Hk as [<- | []]. intros Heq. by rewrite Heq in He.
Qed.

(** The strings of [get_text] are not empty, so the separator does not
    decide whether the text is. *)
Lemma get_text_not_empty (sep : string) (n : node) :
  Soup.get_text sep n <> "" -> Soup.get_text "" n <> "".
Proof.
  unfold Soup.get_text, Py.join.
  pose proof (stripped_strings_not_empty n) as Hne.
  destruct (Soup.stripped_strings n) as [|s l]; [done |].
  intros _. specialize (Hne s (or_introl eq_refl)).
  destruct s as [|c s]; [done |].
  destruct l; cbn [String.concat]; [done |].
  change (String c s ++ "" ++ String.concat "" (s0 :: l))%string
    with (String c (s +:+ "" +:+ String.concat "" (s0 :: l))).
  discriminate.
Qed.

Lemma join_three (a b c : string) :
  Py.join " " [a; b; c] = a +:+ String " " (b +:+ String " " c).
Proof. reflexivity. Qed.

(** C1.  When the first cell of a row with three cells holds a link whose
    text is the label ["<Weekday> <Month> <Day><suffix> <Year>"] of a valid
    calendar date, with any token for the weekday, the full English name
    of the month, the day without a leading zero, any of the suffixes
    [st], [nd], [rd], [th] and the year in four digits, the date the parser
    extracts is that date, and a record the row yields carries its ISO
    form. *)
Theorem row_date_of_label (tr date_td a_tag : node) (weekday suffix : string)
    (y m d : Z) :
  (3 <= length (Soup.find_all "td" tr))%nat ->
  Soup.find_all "td" tr !! 0%nat = Some date_td ->
  Soup.find "a" date_td = Some a_tag ->
  Soup.get_text " " a_tag = date_label weekday y m d suffix ->
  is_token weekday = true ->
  In suffix ordinal_suffixes ->
  valid_date y m d = true ->
  row_date tr = Some (Date y m d)
  /\ forall r : draw,
       parse_row tr = Returned (Some r) -> rec_date r = isoformat (Date y m d).
Proof.
  intros Hlen Htd Ha Htext Hw Hsuf Hvalid.
  destruct (valid_date_bounds y m d Hvalid) as (Hy & Hm & Hd).
  destruct (month_name_shape (Z.to_nat m)) as (_ & Hmon & _); [lia |].
  assert (Hdate : row_date tr = Some (Date y m d)).
  { unfold row_date. rewrite Htd, Ha.
    destruct (Z.of_nat (length (Soup.find_all "td" tr)) <? 3) eqn:Hlt;
      [apply Z.ltb_lt in Hlt; lia |].
    rewrite (is_empty_false (Soup.get_text "" a_tag)).
    - rewrite Htext, (split_date_label _ _ _ _ _ Hw Hsuf Hm).
      cbn [length tail]. rewrite join_three.
      change (Z.of_nat 4 <? 3) with false. cbn iota.
      rewrite (sub_ordinal_date_part _ _ _ _ Hmon Hsuf).
      by apply strptime_date_part.
    - apply (get_text_not_empty " "). rewrite Htext. unfold date_label.
      destruct weekday; [discriminate | by rewrite append_cons]. }
  split; [exact Hdate |].
  intros r (x & _ & Hx & _ & -> & _)%parse_row_some. congruence.
Qed.

Lemma row_date_of_label_witness :
  row_date Sample.good_row = Some (Date 2025 5 30)
  /\ forall r : draw,
       parse_row Sample.good_row = Returned (Some r) ->
       rec_date r = "2025-05-30".
Proof.
  refine (row_date_of_label Sample.good_row
            (Tag "td" ["centred"] (Sample.link "Friday May 30th 2025"))
            (Tag "a" [] [NavigableString "Friday May 30th 2025"])
            "Friday" "th" 2025 5 30 _ _ _ _ _ _ _).
  - vm_compute. lia.
  - vm_compute; reflexivity.
  - vm_compute; reflexivity.
  - vm_compute; reflexivity.
  - vm_compute; reflexivity.
  - cbn. tauto.
  - vm_compute; reflexivity.
Defined.

(** ** The order of the records *)

Lemma parse_rows_kept (trs : list node) :
  forall acc results : list draw,
    parse_rows trs acc = Returned results ->
    results = (acc ++ kept_records trs)%list.
Proof.
  induction trs as [|tr trs IH]; intros acc results.
  - intros [= <-]. cbn. by rewrite app_nil_r.
  - cbn [parse_rows kept_records flat_map].
    destruct (parse_row tr) as [[r|]|]; [| |discriminate].
    + intros ->%IH. by rewrite <- app_assoc.
    + apply IH.
Qed.

Lemma kept_records_length (trs : list node) :
  (length (kept_records trs) <= length trs)%nat.
Proof.
  induction trs as [|tr trs IH]; [done |].
  cbn [kept_records flat_map]. rewrite length_app.
  fold (kept_records trs).
  destruct (parse_row tr) as [[r|]|]; cbn [length]; lia.
Qed.

(** X1.  The list [parse_draw_rows] returns holds the records of the rows
    that yield one, row by row in document order: nothing is sorted,
    merged or dropped afterwards, and there are at most as many records as
    there are [<tr>] elements. *)
Theorem parse_draw_rows_page_order (html : list node) (results : list draw) :
  parse_draw_rows html = Returned results ->
  results = kept_records (Soup.find_all "tr" (Tag "[document]" [] html))
  /\ (length results
      <= length (Soup.find_all "tr" (Tag "[document]" [] html)))%nat.
Proof.
  unfold parse_draw_rows. intros ->%parse_rows_kept. cbn [app].
  split; [reflexivity | apply kept_records_length].
Qed.

Lemma parse_draw_rows_page_order_witness :
  parse_draw_rows (Sample.page [Sample.old_row; Sample.good_row;
                                Scenario.cutoff_row; Sample.good_row])
  = Returned [Sample.good_draw; Scenario.cutoff_draw; Sample.good_draw]
  /\ [Sample.good_draw; Scenario.cutoff_draw; Sample.good_draw]
     = kept_records
         (Soup.find_all "tr"
            (Tag "[document]" []
               (Sample.page [Sample.old_row; Sample.good_row;
                             Scenario.cutoff_row; Sample.good_row]))).
Proof.
  assert (Hrun :
    parse_draw_rows (Sample.page [Sample.old_row; Sample.good_row;
                                  Scenario.cutoff_row; Sample.good_row])
    = Returned [Sample.good_draw; Scenario.cutoff_draw; Sample.good_draw])
    by (vm_compute; reflexivity).
  split; [exact Hrun |].
  exact (proj1 (parse_draw_rows_page_order _ _ Hrun)).
Defined.


(** ** Pages of ASCII text *)










(** Operations that keep a property of every character. *)
Section CharacterWise.
Variable p : ascii -> bool.







End CharacterWise.




(** ** Rows that are skipped, rows that are kept *)

(** X3.  A row with fewer than three [<td>] cells is skipped, and so is a
    row whose link text is empty, has fewer than three whitespace-separated
    parts, or does not parse as a date once the weekday and the ordinal
    suffix are removed.  Nothing is raised, whatever the other cells hold. *)
Theorem parse_row_skips_malformed (tr : node) :
  (length (Soup.find_all "td" tr) < 3)%nat
  \/ (exists date_td a_tag : node,
        Soup.find_all "td" tr !! 0%nat = Some date_td
        /\ Soup.find "a" date_td = Some a_tag
        /\ (Soup.get_text "" a_tag = ""
            \/ (length (Py.split (Soup.get_text " " a_tag)) < 3)%nat
            \/ Strptime.strptime
                 (Re.sub_ordinal
                    (Py.join " " (tail (Py.split (Soup.get_text " " a_tag)))))
               = None)) ->
  parse_row tr = Returned None.
Proof.
  intros H.
  assert (Hdate : row_date tr = None); [|unfold parse_row; by rewrite Hdate].
  unfold row_date. destruct H as [Hlen | (date_td & a_tag & Htd & Ha & H)].
  - destruct (Z.of_nat (length (Soup.find_all "td" tr)) <? 3) eqn:Hlt;
      [reflexivity | apply Z.ltb_ge in Hlt; lia].
  - rewrite Htd, Ha.
    destruct (Z.of_nat (length (Soup.find_all "td" tr)) <? 3); [reflexivity |].
    destruct H as [-> | [Hparts | Hparse]]; [reflexivity | |].
    + destruct (Py.is_empty (Soup.get_text "" a_tag)); [reflexivity |].
      destruct (Z.of_nat (length (Py.split (Soup.get_text " " a_tag))) <? 3)
        eqn:Hlt; [reflexivity | apply Z.ltb_ge in Hlt; lia].
    + destruct (Py.is_empty (Soup.get_text "" a_tag)); [reflexivity |].
      by destruct
        (Z.of_nat (length (Py.split (Soup.get_text " " a_tag))) <? 3).
Qed.

Lemma parse_row_skips_malformed_witness :
  parse_row Scenario.short_row = Returned None
  /\ parse_row Scenario.undated_row = Returned None.
Proof.
  split.
  - apply parse_row_skips_malformed. left. vm_compute. lia.
  - apply parse_row_skips_malformed. right.
    exists (Tag "td" ["centred"] (Sample.link "Draw details here")),
           (Tag "a" [] [NavigableString "Draw details here"]).
    split; [vm_compute; reflexivity |].
    split; [vm_compute; reflexivity |].
    right. right. vm_compute; reflexivity.
Defined.

(** X4.  A row makes the parse raise only with [ValueError], and only if
    it has three cells and a link that parses to a valid date on or after
    the cutoff: rows without a date and rows before the cutoff never raise. *)
Theorem parse_row_raises_only_when_dated (tr : node) (e : exn) :
  parse_row tr = Raised e ->
  e = ValueError
  /\ (3 <= length (Soup.find_all "td" tr))%nat
  /\ exists x : date,
       row_date tr = Some x
       /\ valid_date (year x) (month x) (day x) = true
       /\ date_le CUTOFF_DATE x.
Proof.
  intros Hrow. split; [by apply parse_row_raised in Hrow as [-> _] |].
  unfold parse_row in Hrow.
  destruct (row_date tr) as [x|] eqn:Hdate; [|discriminate].
  destruct (date_ltb x CUTOFF_DATE) eqn:Hcut; [discriminate |].
  apply row_date_some in Hdate as Hshape.
  destruct Hshape as (_ & _ & Hlen & _ & _ & _ & Hvalid).
  split; [exact Hlen |]. by exists x.
Qed.

Lemma parse_row_raises_only_when_dated_witness :
  exists x : date,
    row_date Sample.superscript_ball_row = Some x
    /\ valid_date (year x) (month x) (day x) = true
    /\ date_le CUTOFF_DATE x.
Proof.
  refine (proj2 (proj2 (parse_row_raises_only_when_dated
                          Sample.superscript_ball_row ValueError _))).
  vm_compute; reflexivity.
Defined.

(** X5.  A row whose third cell holds no [<strong>] element yields no
    record, even when the figure stands in the cell as plain text. *)
Theorem parse_row_needs_strong (tr jackpot_td : node) :
  Soup.find_all "td" tr !! 2%nat = Some jackpot_td ->
  Soup.find "strong" jackpot_td = None ->
  forall r : draw, parse_row tr <> Returned (Some r).
Proof.
  intros Htd Hstrong r. unfold parse_row.
  destruct (row_date tr) as [x|]; [|discriminate].
  destruct (date_ltb x CUTOFF_DATE); [discriminate |].
  destruct (Soup.find_all "td" tr !! 1%nat) as [numbers_td|]; [|discriminate].
  rewrite Htd.
  destruct (collect_numbers _ []) as [numbers|]; [|discriminate].
  destruct (Z.of_nat (length numbers) =? 0); [discriminate |].
  rewrite Hstrong. discriminate.
Qed.

Lemma parse_row_needs_strong_witness :
  Soup.find "strong"
    (Tag "td" ["centred"; "nowrap"] [NavigableString "$189,000,000"])
  = None
  /\ parse_row Scenario.no_strong_row <> Returned (Some Sample.good_draw).
Proof.
  split; [reflexivity |].
  apply (parse_row_needs_strong Scenario.no_strong_row
           (Tag "td" ["centred"; "nowrap"] [NavigableString "$189,000,000"])).
  - vm_compute; reflexivity.
  - vm_compute; reflexivity.
Defined.







(** X8.  For a row whose date parses, the cutoff test drops the row
    exactly when the year is before 2025, so a draw of 1 January 2025
    passes it. *)
Theorem cutoff_is_by_year (tr : node) (x : date) :
  row_date tr = Some x ->
  (date_ltb x CUTOFF_DATE = true <-> year x < 2025)
  /\ (year x < 2025 -> parse_row tr = Returned None).
Proof.
  intros Hdate.
  apply row_date_some in Hdate as Hshape.
  destruct Hshape as (_ & _ & _ & _ & _ & _ & Hvalid).
  apply valid_date_bounds in Hvalid as (_ & Hm & Hd).
  assert (Hiff : date_ltb x CUTOFF_DATE = true <-> year x < 2025).
  { unfold date_ltb, CUTOFF_DATE. cbn [year month day]. split.
    - intros [H | [H1 H2]%andb_prop]%orb_prop; [lia |].
      apply orb_prop in H2 as [H2 | [_ H2]%andb_prop]; lia.
    - intros H. apply orb_true_intro. left. lia. }
  split; [exact Hiff |].
  intros Hy. apply (parse_row_before_cutoff tr x Hdate). by apply Hiff.
Qed.

Lemma cutoff_is_by_year_witness :
  parse_row Sample.old_row = Returned None
  /\ date_ltb (Date 2025 1 1) CUTOFF_DATE = false.
Proof.
  split.
  - refine (proj2 (cutoff_is_by_year Sample.old_row (Date 2024 12 31) _) _).
    + vm_compute; reflexivity.
    + vm_compute; reflexivity.
  - reflexivity.
Defined.

(** ** The run of the fetcher *)



Lemma fetch_lottery_history_invariant (w : world) (url : string)
    (draws : list draw) :
  fetch_lottery_history w url = Returned draws ->
  Forall draw_invariant draws.
Proof.
  unfold fetch_lottery_history, fetch_html.
  destruct (http_get w url) as [html|].
  - unfold parse_draw_rows. intros Hparse.
    eapply parse_rows_Forall; [apply parse_row_invariant | | exact Hparse].
    constructor.
  - intros [= <-]. constructor.
Qed.

(** X11.  When neither page can be fetched, the run still produces the
    snapshot, with its timestamp and two empty arrays. *)
Theorem main_without_network (w : world) :
  http_get w POWERBALL_URL = None ->
  http_get w MEGAMILLIONS_URL = None ->
  main w
  = Returned (<["timestamp" := JStr (now_iso w)]>
              (<["powerball" := JArr []]>
               (<["megaMillions" := JArr []]> ∅))).
Proof.
  intros Hp Hm. unfold main, fetch_lottery_history, fetch_html.
  by rewrite Hp, Hm.
Qed.

Lemma main_without_network_witness :
  main Scenario.offline
  = Returned (<["timestamp" := JStr "2025-06-03T14:00:00+00:00"]>
              (<["powerball" := JArr []]>
               (<["megaMillions" := JArr []]> ∅))).
Proof.
  apply (main_without_network Scenario.offline); reflexivity.
Defined.

(** X12.  The snapshot a run writes holds the timestamp of the run and,
    under each game, the records parsed from that game's page in page
    order (none if the page could not be fetched); every record in it
    satisfies the invariant of a draw. *)
Theorem main_writes_parsed_draws (w : world) (snapshot : gmap string json) :
  main w = Returned snapshot ->
  exists powerball_history megamillions_history : list draw,
    fetch_lottery_history w POWERBALL_URL = Returned powerball_history
    /\ fetch_lottery_history w MEGAMILLIONS_URL = Returned megamillions_history
    /\ snapshot !! "timestamp" = Some (JStr (now_iso w))
    /\ snapshot !! "powerball"
       = Some (JArr (draw_to_json <$> powerball_history))
    /\ snapshot !! "megaMillions"
       = Some (JArr (draw_to_json <$> megamillions_history))
    /\ Forall draw_invariant powerball_history
    /\ Forall draw_invariant megamillions_history.
Proof.
  unfold main. intros H.
  destruct (fetch_lottery_history w POWERBALL_URL) as [pb|] eqn:Hpb;
    [|discriminate].
  destruct (fetch_lottery_history w MEGAMILLIONS_URL) as [mm|] eqn:Hmm;
    [|discriminate].
  injection H as <-. exists pb, mm.
  split; [done |]. split; [done |].
  split; [by rewrite lookup_insert_eq |].
  split; [by rewrite lookup_insert_ne, lookup_insert_eq by done |].
  split; [by rewrite !lookup_insert_ne, lookup_insert_eq by done |].
  split; by eapply fetch_lottery_history_invariant.
Qed.

Lemma main_writes_parsed_draws_witness :
  exists powerball_history megamillions_history : list draw,
    fetch_lottery_history Sample.the_world POWERBALL_URL
    = Returned powerball_history
    /\ fetch_lottery_history Sample.the_world MEGAMILLIONS_URL
       = Returned megamillions_history
    /\ Scenario.published !! "timestamp"
       = Some (JStr (now_iso Sample.the_world))
    /\ Scenario.published !! "powerball"
       = Some (JArr (draw_to_json <$> powerball_history))
    /\ Scenario.published !! "megaMillions"
       = Some (JArr (draw_to_json <$> megamillions_history))
    /\ Forall draw_invariant powerball_history
    /\ Forall draw_invariant megamillions_history.
Proof.
  apply (main_writes_parsed_draws Sample.the_world).
  vm_compute; reflexivity.
Defined.



(** ** Queries *)

Lemma strip_blank (s : string) : blank s = true -> Py.strip s = "".
Proof.
  unfold blank, Py.strip. intros H.
  assert (Hl : Py.lstrip s = ""); [|by rewrite Hl].
  induction s as [|c s IH]; [done |].
  cbn [Py.forall_chars] in H. apply andb_prop in H as [Hc Hs].
  cbn [Py.lstrip]. rewrite Hc. by apply IH.
Qed.

(** X19.  A game parameter made of whitespace only is looked up as the
    empty key: when the snapshot has no such key the answer is a 404 that
    quotes the blanks, unlike the empty parameter, which gets the whole
    snapshot. *)
Theorem get_lottery_blank_game (history : gmap string json) (game : string)
    (date : option string) :
  game <> "" -> blank game = true ->
  history !! "" = None ->
  get_lottery history (Some game) date
  = Raised (HTTPException 404 ("Game '" +:+ game +:+ "' not found")).
Proof.
  intros Hg Hb Hk. apply get_lottery_unknown; [exact Hg |].
  by rewrite (strip_blank _ Hb).
Qed.

Lemma get_lottery_blank_game_witness :
  get_lottery Sample.snapshot (Some "  ") (Some "2025-01-07")
  = Raised (HTTPException 404 "Game '  ' not found").
Proof.
  apply (get_lottery_blank_game Sample.snapshot "  " (Some "2025-01-07")).
  - discriminate.
  - reflexivity.
  - vm_compute; reflexivity.
Defined.

Lemma filter_by_date_non_object (date : string) (items : list json) :
  forallb is_object items = false ->
  filter_by_date date items = Raised AttributeError.
Proof.
  induction items as [|e items IH]; [discriminate |].
  cbn [forallb filter_by_date]. intros H.
  destruct e; try reflexivity.
  cbn [is_object andb] in H. by rewrite (IH H).
Qed.

(** X17.  A dated query over an array that holds an entry which is not an
    object raises [AttributeError], whatever the other entries are. *)
Theorem get_lottery_non_object_entry (history : gmap string json)
    (game date : string) (items : list json) :
  game <> "" -> date <> "" ->
  history !! Py.strip game = Some (JArr items) ->
  forallb is_object items = false ->
  get_lottery history (Some game) (Some date) = Raised AttributeError.
Proof.
  intros Hg Hd Hk Hitems. unfold get_lottery.
  rewrite (is_empty_false _ Hg), Hk, (is_empty_false _ Hd).
  cbn [filter_entries]. by rewrite (filter_by_date_non_object _ _ Hitems).
Qed.

Lemma get_lottery_non_object_entry_witness :
  get_lottery Scenario.mixed_snapshot (Some "powerball") (Some "2025-01-07")
  = Raised AttributeError.
Proof.
  apply (get_lottery_non_object_entry Scenario.mixed_snapshot "powerball"
           "2025-01-07" [Sample.mega_draw; JInt 7]).
  - discriminate.
  - discriminate.
  - vm_compute; reflexivity.
  - reflexivity.
Defined.

(** X16.  Against a snapshot written by a run, [game=timestamp] returns the
    timestamp string, and with a date it raises [AttributeError] instead of
    answering. *)
Theorem get_lottery_timestamp (w : world) (snapshot : gmap string json)
    (date : string) :
  main w = Returned snapshot ->
  now_iso w <> "" -> date <> "" ->
  get_lottery snapshot (Some "timestamp") None = Returned (JStr (now_iso w))
  /\ get_lottery snapshot (Some "timestamp") (Some date)
     = Raised AttributeError.
Proof.
  intros Hmain Hnow Hd. unfold main in Hmain.
  destruct (fetch_lottery_history w POWERBALL_URL); [|discriminate].
  destruct (fetch_lottery_history w MEGAMILLIONS_URL); [|discriminate].
  injection Hmain as <-. unfold get_lottery.
  change (Py.is_empty "timestamp") with false.
  change (Py.strip "timestamp") with "timestamp". cbn iota.
  rewrite lookup_insert_eq. split; [reflexivity |].
  rewrite (is_empty_false _ Hd). cbn [filter_entries].
  by rewrite (is_empty_false _ Hnow).
Qed.

Lemma get_lottery_timestamp_witness :
  get_lottery Scenario.published (Some "timestamp") None
  = Returned (JStr "2025-06-03T14:00:00+00:00")
  /\ get_lottery Scenario.published (Some "timestamp") (Some "2025-05-30")
     = Raised AttributeError.
Proof.
  apply (get_lottery_timestamp Sample.the_world Scenario.published
           "2025-05-30").
  - vm_compute; reflexivity.
  - discriminate.
  - discriminate.
Defined.

(** ** Queries against what the fetcher wrote *)

Lemma has_date_draw (date : string) (r : draw) :
  has_date date (draw_to_json r) = String.eqb (rec_date r) date.
Proof. unfold has_date, draw_to_json. by rewrite lookup_insert_eq. Qed.

Lemma filter_has_date_draws (date : string) (draws : list draw) :
  List.filter (has_date date) (draw_to_json <$> draws)
  = draw_to_json <$> draws_on date draws.
Proof.
  unfold draws_on. induction draws as [|r draws IH]; [reflexivity |].
  rewrite fmap_cons. cbn [List.filter]. rewrite has_date_draw, IH.
  destruct (String.eqb (rec_date r) date); [by rewrite fmap_cons | done].
Qed.

Lemma draws_are_objects (draws : list draw) :
  forallb is_object (draw_to_json <$> draws) = true.
Proof. induction draws as [|r draws IH]; [reflexivity | exact IH]. Qed.

Lemma isoformat_not_empty (x : date) : isoformat x <> "".
Proof. unfold isoformat, pad4. rewrite append_cons. discriminate. Qed.

(** The array a run wrote under the key of a game. *)
Lemma published_lookup (w : world) (snapshot : gmap string json)
    (game url : string) (draws : list draw) :
  main w = Returned snapshot ->
  (game = "powerball" /\ url = POWERBALL_URL)
  \/ (game = "megaMillions" /\ url = MEGAMILLIONS_URL) ->
  fetch_lottery_history w url = Returned draws ->
  game <> "" /\ Py.strip game = game
  /\ snapshot !! game = Some (JArr (draw_to_json <$> draws)).
Proof.
  intros Hmain Hgame Hdraws. unfold main in Hmain.
  destruct (fetch_lottery_history w POWERBALL_URL) as [pb|] eqn:Hpb;
    [|discriminate].
  destruct (fetch_lottery_history w MEGAMILLIONS_URL) as [mm|] eqn:Hmm;
    [|discriminate].
  injection Hmain as <-.
  destruct Hgame as [[-> ->] | [-> ->]];
    (split; [discriminate | split; [reflexivity |]]).
  - rewrite lookup_insert_ne, lookup_insert_eq by done. congruence.
  - rewrite !lookup_insert_ne, lookup_insert_eq by done. congruence.
Qed.

(** A dated query against that array. *)
Lemma get_lottery_published_dated (w : world) (snapshot : gmap string json)
    (game url date : string) (draws : list draw) :
  main w = Returned snapshot ->
  (game = "powerball" /\ url = POWERBALL_URL)
  \/ (game = "megaMillions" /\ url = MEGAMILLIONS_URL) ->
  fetch_lottery_history w url = Returned draws ->
  date <> "" ->
  get_lottery snapshot (Some game) (Some date)
  = match draw_to_json <$> draws_on date draws with
    | [] => Raised (HTTPException 404
              ("No " +:+ game +:+ " draws found on " +:+ date))
    | filtered => Returned (JArr filtered)
    end.
Proof.
  intros Hmain Hgame Hdraws Hd.
  destruct (published_lookup w snapshot game url draws Hmain Hgame Hdraws)
    as (Hne & Hstrip & Hkey).
  rewrite (get_lottery_dated snapshot game date (draw_to_json <$> draws));
    [| done | done | by rewrite Hstrip | apply draws_are_objects].
  by rewrite filter_has_date_draws, Hstrip.
Qed.

(** X14.  Against a snapshot written by a run, a query for a game returns
    the records parsed from its page; a dated query is a 404 when no
    record carries that date string, and the date string of any published
    record finds that record among the records of the same date. *)
Theorem query_published_game (w : world) (snapshot : gmap string json)
    (game url : string) (draws : list draw) :
  main w = Returned snapshot ->
  (game = "powerball" /\ url = POWERBALL_URL)
  \/ (game = "megaMillions" /\ url = MEGAMILLIONS_URL) ->
  fetch_lottery_history w url = Returned draws ->
  get_lottery snapshot (Some game) None
  = Returned (JArr (draw_to_json <$> draws))
  /\ (forall date : string,
        date <> "" -> draws_on date draws = [] ->
        get_lottery snapshot (Some game) (Some date)
        = Raised (HTTPException 404
            ("No " +:+ game +:+ " draws found on " +:+ date)))
  /\ (forall r : draw,
        In r draws ->
        In r (draws_on (rec_date r) draws)
        /\ get_lottery snapshot (Some game) (Some (rec_date r))
           = Returned (JArr (draw_to_json <$> draws_on (rec_date r) draws))).
Proof.
  intros Hmain Hgame Hdraws.
  assert (Hinv : Forall draw_invariant draws)
    by (by eapply fetch_lottery_history_invariant).
  destruct (published_lookup w snapshot game url draws Hmain Hgame Hdraws)
    as (Hne & Hstrip & Hkey).
  split; [apply get_lottery_known; [done | by rewrite Hstrip] |]. split.
  - intros date Hd Hnone.
    by rewrite (get_lottery_published_dated w snapshot game url date draws),
      Hnone.
  - intros r Hr.
    assert (Hin : In r (draws_on (rec_date r) draws)).
    { unfold draws_on. apply filter_In. split; [exact Hr |].
      apply String.eqb_refl. }
    split; [exact Hin |].
    rewrite List.Forall_forall in Hinv.
    destruct (Hinv r Hr) as (_ & _ & x & _ & _ & Hiso).
    rewrite (get_lottery_published_dated w snapshot game url (rec_date r)
               draws) by (try done; rewrite Hiso; apply isoformat_not_empty).
    destruct (draws_on (rec_date r) draws); [destruct Hin | reflexivity].
Qed.

Lemma query_published_game_witness :
  get_lottery Scenario.published (Some "powerball") (Some "2025-05-30")
  = Returned (JArr [draw_to_json Sample.good_draw])
  /\ get_lottery Scenario.published (Some "megaMillions") (Some "2025-05-30")
     = Raised (HTTPException 404 "No megaMillions draws found on 2025-05-30").
Proof.
  split.
  - refine (proj2 (proj2 (proj2
      (query_published_game Sample.the_world Scenario.published
         "powerball" POWERBALL_URL [Sample.good_draw] _ _ _))
      Sample.good_draw _)).
    + vm_compute; reflexivity.
    + left. split; reflexivity.
    + vm_compute; reflexivity.
    + left. reflexivity.
  - refine (proj1 (proj2
      (query_published_game Sample.the_world Scenario.published
         "megaMillions" MEGAMILLIONS_URL [] _ _ _)) "2025-05-30" _ _).
    + vm_compute; reflexivity.
    + right. split; reflexivity.
    + vm_compute; reflexivity.
    + discriminate.
    + reflexivity.
Defined.




(** ** The date string of a record *)

Lemma isoformat_chars (x : date) :
  isoformat x
  = String (digit_char (year x / 1000)) (String (digit_char (year x / 100))
      (String (digit_char (year x / 10)) (String (digit_char (year x))
        (String "-" (String (digit_char (month x / 10))
          (String (digit_char (month x)) (String "-"
            (String (digit_char (day x / 10))
              (String (digit_char (day x)) ""))))))))).
Proof. reflexivity. Qed.

Lemma isoformat_shaped (x : date) : iso_shaped (isoformat x) = true.
Proof.
  rewrite isoformat_chars. cbn [iso_shaped Py.forall_chars].
  rewrite !digit_char_decimal. reflexivity.
Qed.

Lemma pad2_value (n : Z) : 0 <= n <= 99 -> Py.digits_value 0 (pad2 n) = n.
Proof.
  intros Hn. unfold pad2. cbn [Py.digits_value].
  rewrite !digit_value_digit_char. Z.div_mod_to_equations. lia.
Qed.

Lemma isoformat_injective (x x' : date) :
  valid_date (year x) (month x) (day x) = true ->
  valid_date (year x') (month x') (day x') = true ->
  isoformat x = isoformat x' -> x = x'.
Proof.
  intros (Hy & Hm & Hd)%valid_date_bounds (Hy' & Hm' & Hd')%valid_date_bounds.
  rewrite !isoformat_chars. intros H.
  injection H as H1 H2 H3 H4 H5 H6 H7 H8.
  assert (Hyear : pad4 (year x) = pad4 (year x'))
    by (unfold pad4; congruence).
  assert (Hmonth : pad2 (month x) = pad2 (month x'))
    by (unfold pad2; congruence).
  assert (Hday : pad2 (day x) = pad2 (day x'))
    by (unfold pad2; congruence).
  apply (f_equal (Py.digits_value 0)) in Hyear, Hmonth, Hday.
  rewrite !pad4_value in Hyear by lia.
  rewrite !pad2_value in Hmonth, Hday by lia.
  destruct x, x'. cbn in *. congruence.
Qed.

(** X10.  The date string of a record has the form [dddd-dd-dd], and two
    records carry the same string exactly when their rows parsed to the
    same date. *)
Theorem rec_date_identifies_date (tr tr' : node) (r r' : draw) (x x' : date) :
  parse_row tr = Returned (Some r) -> row_date tr = Some x ->
  parse_row tr' = Returned (Some r') -> row_date tr' = Some x' ->
  iso_shaped (rec_date r) = true
  /\ (rec_date r = rec_date r' <-> x = x').
Proof.
  intros Hrow Hdate Hrow' Hdate'.
  apply parse_row_some in Hrow as (y & _ & Hy & _ & Hiso & _).
  apply parse_row_some in Hrow' as (y' & _ & Hy' & _ & Hiso' & _).
  assert (y = x) as -> by congruence.
  assert (y' = x') as -> by congruence.
  apply row_date_some in Hdate as (_ & _ & _ & _ & _ & _ & Hvalid).
  apply row_date_some in Hdate' as (_ & _ & _ & _ & _ & _ & Hvalid').
  rewrite Hiso, Hiso'. split; [apply isoformat_shaped |]. split.
  - by apply isoformat_injective.
  - by intros ->.
Qed.

Lemma rec_date_identifies_date_witness :
  iso_shaped (rec_date Sample.good_draw) = true
  /\ (rec_date Sample.good_draw = rec_date Scenario.cutoff_draw
      <-> Date 2025 5 30 = Date 2025 1 1).
Proof.
  apply (rec_date_identifies_date Sample.good_row Scenario.cutoff_row);
    vm_compute; reflexivity.
Defined.

(** X15.  The date of a query is compared as a string: against a snapshot
    written by a run, a date that is not of the form [dddd-dd-dd], such as
    one with a leading blank, finds nothing and is answered with a 404. *)
Theorem query_published_date_is_literal (w : world)
    (snapshot : gmap string json) (game url date : string)
    (draws : list draw) :
  main w = Returned snapshot ->
  (game = "powerball" /\ url = POWERBALL_URL)
  \/ (game = "megaMillions" /\ url = MEGAMILLIONS_URL) ->
  fetch_lottery_history w url = Returned draws ->
  date <> "" -> iso_shaped date = false ->
  get_lottery snapshot (Some game) (Some date)
  = Raised (HTTPException 404
      ("No " +:+ game +:+ " draws found on " +:+ date)).
Proof.
  intros Hmain Hgame Hdraws Hd Hshape.
  rewrite (get_lottery_published_dated w snapshot game url date draws)
    by done.
  assert (Hnone : draws_on date draws = []); [|by rewrite Hnone].
  apply fetch_lottery_history_invariant in Hdraws as Hinv.
  unfold draws_on. clear Hdraws Hmain.
  induction Hinv as [|r draws Hr Hinv IH]; [reflexivity |].
  cbn [List.filter]. destruct (String.eqb_spec (rec_date r) date) as [Heq|_];
    [|exact IH].
  destruct Hr as (_ & _ & x & _ & _ & Hiso).
  rewrite <- Heq, Hiso, isoformat_shaped in Hshape. discriminate.
Qed.

Lemma query_published_date_is_literal_witness :
  get_lottery Scenario.published (Some "powerball") (Some " 2025-05-30")
  = Raised (HTTPException 404 "No powerball draws found on  2025-05-30").
Proof.
  apply (query_published_date_is_literal Sample.the_world Scenario.published
           "powerball" POWERBALL_URL " 2025-05-30" [Sample.good_draw]).
  - vm_compute; reflexivity.
  - left. split; reflexivity.
  - vm_compute; reflexivity.
  - discriminate.
  - reflexivity.
Defined.

(** X20.  Two game parameters with the same stripped form that names a key
    of the snapshot get the same answer. *)
Theorem get_lottery_same_stripped_game (history : gmap string json)
    (game game' : string) (date : option string) :
  game <> "" -> game' <> "" ->
  Py.strip game = Py.strip game' ->
  is_Some (history !! Py.strip game) ->
  get_lottery history (Some game) date = get_lottery history (Some game') date.
Proof.
  intros Hg Hg' Hstrip [entries Hk]. unfold get_lottery.
  rewrite (is_empty_false _ Hg), (is_empty_false _ Hg'), <- Hstrip.
  by rewrite Hk.
Qed.

Lemma get_lottery_same_stripped_game_witness :
  get_lottery Sample.snapshot (Some " megaMillions") (Some "2025-01-07")
  = get_lottery Sample.snapshot (Some "megaMillions  ") (Some "2025-01-07").
Proof.
  apply get_lottery_same_stripped_game.
  - discriminate.
  - discriminate.
  - reflexivity.
  - exists (JArr [Sample.mega_draw]). vm_compute; reflexivity.
Defined.

(** ** A label without an ordinal suffix *)

Lemma sub_ordinal_digits_then (ds : string) (x : ascii) (s : string) :
  Py.forall_chars Py.isdecimal_char ds = true ->
  (forall b, Re.is_ordinal_suffix x b = false) ->
  Re.sub_ordinal (ds +:+ String x s) = ds +:+ Re.sub_ordinal (String x s).
Proof.
  intros Hds Hx. remember (Re.sub_ordinal (String x s)) as t eqn:Ht.
  induction ds as [|c ds IH]; [by rewrite Ht |].
  cbn [Py.forall_chars] in Hds. apply andb_prop in Hds as [Hc Hds].
  rewrite !append_cons. cbn [Re.sub_ordinal]. rewrite Hc, <- (IH Hds).
  assert (Hhead : exists a r, ds +:+ String x s = String a r
                              /\ forall b, Re.is_ordinal_suffix a b = false).
  { destruct ds as [|c' ds'].
    - exists x, s. by split.
    - exists c', (ds' +:+ String x s). split; [reflexivity |].
      cbn [Py.forall_chars] in Hds. apply andb_prop in Hds as [Hc' _].
      intros b. by apply decimal_not_suffix. }
  destruct Hhead as (a & r & -> & Ha).
  destruct r as [|b r']; [reflexivity | by rewrite Ha].
Qed.

(** X9.  The ordinal suffix is optional: the label
    ["<Weekday> <Month> <Day> <Year>"] of a valid date, without a suffix
    after the day, is read as that date. *)
Theorem row_date_without_suffix (tr date_td a_tag : node) (weekday : string)
    (y m d : Z) :
  (3 <= length (Soup.find_all "td" tr))%nat ->
  Soup.find_all "td" tr !! 0%nat = Some date_td ->
  Soup.find "a" date_td = Some a_tag ->
  Soup.get_text " " a_tag = date_label weekday y m d "" ->
  is_token weekday = true ->
  valid_date y m d = true ->
  row_date tr = Some (Date y m d).
Proof.
  intros Hlen Htd Ha Htext Hw Hvalid.
  destruct (valid_date_bounds y m d Hvalid) as (Hy & Hm & Hd).
  destruct (month_name_shape (Z.to_nat m)) as (Hmon & Hletters & _); [lia |].
  destruct (decimal_day_shape d) as [Hd1 Hd2].
  destruct (pad4_shape y) as [Hy1 Hy2].
  assert (Hlabel : date_label weekday y m d ""
            = weekday +:+ String " " (nth (Z.to_nat m) Strptime.month_name ""
                +:+ String " " (decimal_day d +:+ String " " (pad4 y))))
    by reflexivity.
  unfold row_date. rewrite Htd, Ha.
  destruct (Z.of_nat (length (Soup.find_all "td" tr)) <? 3) eqn:Hlt;
    [apply Z.ltb_lt in Hlt; lia |].
  rewrite (is_empty_false (Soup.get_text "" a_tag)).
  - rewrite Htext, Hlabel.
    rewrite (split_token_space _ _ Hw), (split_token_space _ _ Hmon).
    rewrite (split_token_space _ _ (decimal_is_token _ Hd1 Hd2)).
    rewrite (split_token _ (decimal_is_token _ Hy1 Hy2)).
    cbn [length tail]. rewrite join_three.
    change (Z.of_nat 4 <? 3) with false. cbn iota.
    rewrite (sub_ordinal_other _ _ Hletters).
    assert (Hsp : forall s, Re.sub_ordinal (String " " s)
                            = String " " (Re.sub_ordinal s)) by reflexivity.
    rewrite Hsp, (sub_ordinal_digits_then _ " " _ Hd2) by reflexivity.
    rewrite Hsp, (sub_ordinal_decimal _ Hy2).
    by apply strptime_date_part.
  - apply (get_text_not_empty " "). rewrite Htext, Hlabel.
    destruct weekday; [discriminate | by rewrite append_cons].
Qed.

Lemma row_date_without_suffix_witness :
  row_date (Sample.row (Sample.link "Friday May 30 2025") Sample.balls_1
              "$189,000,000")
  = Some (Date 2025 5 30).
Proof.
  refine (row_date_without_suffix _
            (Tag "td" ["centred"] (Sample.link "Friday May 30 2025"))
            (Tag "a" [] [NavigableString "Friday May 30 2025"])
            "Friday" 2025 5 30 _ _ _ _ _ _).
  - vm_compute. lia.
  - vm_compute; reflexivity.
  - vm_compute; reflexivity.
  - vm_compute; reflexivity.
  - vm_compute; reflexivity.
  - vm_compute; reflexivity.
Defined.
